(** * TorchDR: backend wrappers and affinity contracts

    Part I embeds [torchdr/utils/wrappers.py]: the decorators and conversion
    helpers that move data between numpy and torch and between devices.
    Part II states the numerical contracts of the affinity engine that the
    tests of [torchdr/tests/test_affinity.py] exercise. *)

From Stdlib Require Import Ascii String Bool Arith Lia QArith.
From Stdlib Require Import Reals Ranalysis5 Lra List.
Import ListNotations.

Set Warnings "-register-all".

(* ================================================================= *)
(** * Part I: torchdr/utils/wrappers.py *)
(* ================================================================= *)

Module Wrappers.

Local Open Scope string_scope.
Local Open Scope nat_scope.

(** ** Python exceptions and fallible calls *)

Inductive exn : Type :=
| ValueError (msg : string)
| TypeError (msg : string)
| AttributeError (msg : string)
| RuntimeError (msg : string).

Inductive result (A : Type) : Type :=
| Ok (a : A)
| Raise (e : exn).

Arguments Ok {A} a.
Arguments Raise {A} e.

Definition bind {A B : Type} (r : result A) (k : A -> result B) : result B :=
  match r with
  | Ok a => k a
  | Raise e => Raise e
  end.

Notation "x <- r ;; k" := (bind r (fun x => k))
  (at level 61, r at next level, right associativity).
Notation "' p <- r ;; k" := (bind r (fun x => match x with p => k end))
  (at level 61, p pattern, r at next level, right associativity).

(** ** Tensors and arrays *)

(** The dtypes that numpy and torch share, so that [torch.from_numpy] and
    [Tensor.numpy] are defined on all of them. *)
Inductive dtype : Type :=
| bool_ | uint8 | int8 | int16 | int32 | int64
| float16 | float32 | float64
| complex64 | complex128.

(** [dtype.is_floating_point] *)
Definition is_floating_point (d : dtype) : bool :=
  match d with
  | float16 | float32 | float64 => true
  | _ => false
  end.

(** dtype kind "c" in numpy, [torch.is_complex] in torch *)
Definition is_complex_dtype (d : dtype) : bool :=
  match d with
  | complex64 | complex128 => true
  | _ => false
  end.

Inductive device : Type :=
| cpu
| cuda (index : nat).

Definition device_eqb (a b : device) : bool :=
  match a, b with
  | cpu, cpu => true
  | cuda i, cuda j => i =? j
  | _, _ => false
  end.

(** An IEEE value is a finite rational, an infinity or a NaN.  Elements of
    integer and boolean tensors are [Finite]. *)
Inductive fp : Type :=
| Finite (q : Q)
| PosInf
| NegInf
| NaN.

Inductive scalar : Type :=
| Real (x : fp)
| Complex (re im : fp).

Definition fp_isfinite (x : fp) : bool :=
  match x with
  | Finite _ => true
  | _ => false
  end.

Definition fp_is_zero (x : fp) : bool :=
  match x with
  | Finite q => Qeq_bool q 0
  | _ => false
  end.

(** [torch.isfinite] / [np.isfinite] on one element *)
Definition scalar_isfinite (s : scalar) : bool :=
  match s with
  | Real x => fp_isfinite x
  | Complex re im => fp_isfinite re && fp_isfinite im
  end.

Definition fp_isnan (x : fp) : bool :=
  match x with
  | NaN => true
  | _ => false
  end.

(** [np.isnan] on one element *)
Definition scalar_isnan (s : scalar) : bool :=
  match s with
  | Real x => fp_isnan x
  | Complex re im => fp_isnan re || fp_isnan im
  end.

(** one element of [np.iscomplex]: the imaginary part is not zero *)
Definition scalar_iscomplex (s : scalar) : bool :=
  match s with
  | Real _ => false
  | Complex _ im => negb (fp_is_zero im)
  end.

(** A torch tensor: element type, device, sizes, strides (in elements),
    the elements in logical row-major order, and the autograd flag. *)
Record Tensor : Type := mkTensor {
  t_dtype : dtype;
  t_device : device;
  t_shape : list nat;
  t_stride : list nat;
  t_data : list scalar;
  t_requires_grad : bool
}.

(** A numpy array (always on the host). *)
Record ndarray : Type := mkArray {
  np_dtype : dtype;
  np_shape : list nat;
  np_data : list scalar
}.

(** What the process can see of the machine: [torch.cuda.is_available()] and
    the rounding of a rational to the nearest float32. *)
Record runtime : Type := mkRuntime {
  cuda_is_available : bool;
  round_float32 : Q -> Q
}.

(** ** Memory layout *)

Definition numel (shape : list nat) : nat := fold_right Nat.mul 1 shape.

(** Row-major strides: [stride[i] = stride[i+1] * max(size[i+1], 1)]. *)
Definition dense_extent (shape : list nat) : nat :=
  fold_right (fun s acc => Nat.max s 1 * acc) 1 shape.

Fixpoint contiguous_strides (shape : list nat) : list nat :=
  match shape with
  | [] => []
  | _ :: rest => dense_extent rest :: contiguous_strides rest
  end.

(** The scan of [Tensor.is_contiguous]: from the last dimension to the
    first, a dimension of size other than 1 must have the stride expected
    so far.  [Some z] carries the stride expected of the next dimension. *)
Fixpoint contiguous_scan (shape strides : list nat) : option nat :=
  match shape, strides with
  | [], [] => Some 1
  | s :: shape', st :: strides' =>
      match contiguous_scan shape' strides' with
      | Some z =>
          if s =? 1 then Some z
          else if st =? z then Some (z * s) else None
      | None => None
      end
  | _, _ => None
  end.

Definition is_contiguous (t : Tensor) : bool :=
  if numel (t_shape t) =? 0 then true
  else match contiguous_scan (t_shape t) (t_stride t) with
       | Some _ => true
       | None => false
       end.

(** [Tensor.contiguous()]: the tensor itself when it is contiguous, else a
    row-major copy. *)
Definition contiguous (t : Tensor) : Tensor :=
  if is_contiguous t then t
  else mkTensor (t_dtype t) (t_device t) (t_shape t)
                (contiguous_strides (t_shape t)) (t_data t)
                (t_requires_grad t).

(** ** Tensor and array primitives used by the wrappers *)

(** [torch.is_complex(x)] *)
Definition is_complex (t : Tensor) : bool := is_complex_dtype (t_dtype t).

(** [torch.isfinite(x).all()] *)
Definition isfinite_all (t : Tensor) : bool := forallb scalar_isfinite (t_data t).

(** [x.to(device)]: same elements and layout on another device *)
Definition tensor_to (t : Tensor) (d : device) : Tensor :=
  mkTensor (t_dtype t) d (t_shape t) (t_stride t) (t_data t) (t_requires_grad t).

Definition cast_float32 (rt : runtime) (s : scalar) : scalar :=
  match s with
  | Real (Finite q) => Real (Finite (round_float32 rt q))
  | Real x => Real x
  | Complex re _ => Real re
  end.

(** [x.float()] *)
Definition tensor_float (rt : runtime) (t : Tensor) : Tensor :=
  mkTensor float32 (t_device t) (t_shape t) (t_stride t)
           (map (cast_float32 rt) (t_data t)) (t_requires_grad t).

(** [x.detach()] *)
Definition tensor_detach (t : Tensor) : Tensor :=
  mkTensor (t_dtype t) (t_device t) (t_shape t) (t_stride t) (t_data t) false.

(** [x.copy()] of numpy: a C-ordered copy *)
Definition np_copy (a : ndarray) : ndarray := a.

(** [torch.from_numpy] of a C-ordered array *)
Definition from_numpy (a : ndarray) : Tensor :=
  mkTensor (np_dtype a) cpu (np_shape a) (contiguous_strides (np_shape a))
           (np_data a) false.

(** [np.iscomplex(x).any()]: numpy looks at the dtype first *)
Definition np_iscomplex_any (a : ndarray) : bool :=
  is_complex_dtype (np_dtype a) && existsb scalar_iscomplex (np_data a).

(** [x.numpy()] *)
Definition tensor_numpy (t : Tensor) : result ndarray :=
  match t_device t with
  | cuda _ =>
      Raise (TypeError "can't convert cuda device type tensor to numpy")
  | cpu =>
      if t_requires_grad t
      then Raise (RuntimeError "Can't call numpy() on Tensor that requires grad")
      else Ok (mkArray (t_dtype t) (t_shape t) (t_data t))
  end.

(** ** sklearn.utils.validation.check_array

    The call is [check_array(x, accept_sparse=False)]; every other option
    has its default: [ensure_2d=True], [allow_nd=False], all elements finite,
    at least one sample and one feature.  The checks run in this order and
    each failure is a [ValueError]. *)

Definition sk_complex_data := "Complex data not supported".
Definition sk_scalar_array := "Expected 2D array, got scalar array instead".
Definition sk_1d_array := "Expected 2D array, got 1D array instead".
Definition sk_nd_array := "Found array with dim > 2. None expected <= 2.".
Definition sk_nan := "Input contains NaN.".
Definition sk_infinity := "Input contains infinity or a value too large for dtype.".
Definition sk_no_sample := "Found array with 0 sample(s) while a minimum of 1 is required.".
Definition sk_no_feature := "Found array with 0 feature(s) while a minimum of 1 is required.".

Definition check_array (a : ndarray) : result ndarray :=
  if is_complex_dtype (np_dtype a) then Raise (ValueError sk_complex_data)
  else
    match np_shape a with
    | [] => Raise (ValueError sk_scalar_array)
    | [_] => Raise (ValueError sk_1d_array)
    | [n_samples; n_features] =>
        if negb (forallb scalar_isfinite (np_data a))
        then if existsb scalar_isnan (np_data a)
             then Raise (ValueError sk_nan)
             else Raise (ValueError sk_infinity)
        else if n_samples <? 1 then Raise (ValueError sk_no_sample)
        else if n_features <? 1 then Raise (ValueError sk_no_feature)
        else Ok a
    | _ => Raise (ValueError sk_nd_array)
    end.

(** ** Python values that travel through the wrappers *)

Inductive value : Type :=
| VTensor (t : Tensor)
| VArray (a : ndarray)
| VStr (s : string)
| VDevice (d : device)
| VTuple (items : list value)
| VGenerator (items : list value)
| VLazyTensor.

(** The argument [x] of [to_torch]: a torch tensor, or anything else, which
    goes through [check_array]; an array-like is identified with the array
    [np.asarray] makes of it. *)
Inductive input : Type :=
| TorchInput (t : Tensor)
| NumpyInput (a : ndarray).

(** ** contiguous_output *)

Definition contiguous_item (out : value) : value :=
  match out with
  | VTensor t => VTensor (contiguous t)
  | _ => out
  end.

Definition contiguous_output {A : Type} (func : A -> result value)
  : A -> result value :=
  fun args =>
    output <- func args ;;
    match output with
    | VTuple items => Ok (VGenerator (map contiguous_item items))
    | VTensor t => Ok (VTensor (contiguous t))
    | _ => Ok output
    end.

(** ** to_torch *)

Definition msg_complex_tensor := "[TorchDR] ERROR : complex tensors are not supported.".
Definition msg_infinite := "[TorchDR] ERROR : input contains infinite values.".
Definition msg_complex_array := "[TorchDR] ERROR : complex arrays are not supported.".

(** [device in ["cuda", "cuda:0", "gpu", None]] *)
Definition device_asks_gpu (device : option string) : bool :=
  match device with
  | None => true
  | Some s => existsb (String.eqb s) ["cuda"; "cuda:0"; "gpu"]
  end.

(** the undecorated body; the arguments are
    [(x, device, verbose, return_backend_device)] *)
Definition to_torch_body (rt : runtime)
    (args : input * option string * bool * bool) : result value :=
  let '(x, device, verbose, return_backend_device) := args in
  let use_gpu := device_asks_gpu device && cuda_is_available rt in
  let new_device := if use_gpu then cuda 0 else cpu in
  r <- match x with
       | TorchInput x =>
           if is_complex x then Raise (ValueError msg_complex_tensor)
           else if negb (isfinite_all x) then Raise (ValueError msg_infinite)
           else
             let input_backend := VStr "torch" in
             let input_device := VDevice (t_device x) in
             let x_ := if negb (device_eqb (t_device x) new_device)
                       then tensor_to x new_device else x in
             Ok (x_, input_backend, input_device)
       | NumpyInput x =>
           x <- check_array x ;;
           let input_backend := VStr "numpy" in
           let input_device := VStr "cpu" in
           if np_iscomplex_any x then Raise (ValueError msg_complex_array)
           else
             let x_ := tensor_to (from_numpy (np_copy x)) new_device in
             Ok (x_, input_backend, input_device)
       end ;;
  let '(x_, input_backend, input_device) := r in
  let x_ := if negb (is_floating_point (t_dtype x_))
            then tensor_float rt x_ else x_ in
  if return_backend_device
  then Ok (VTuple [VTensor x_; input_backend; input_device])
  else Ok (VTensor x_).

Definition to_torch (rt : runtime) (x : input) (device : option string)
    (verbose return_backend_device : bool) : result value :=
  contiguous_output (to_torch_body rt) (x, device, verbose, return_backend_device).

(** ** torch_to_backend *)

(** a decimal digit *)
Definition digit_of (c : ascii) : option nat :=
  let n := nat_of_ascii c in
  if (48 <=? n) && (n <=? 57) then Some (n - 48) else None.

Fixpoint index_of_digits (s : string) (acc : nat) : option nat :=
  match s with
  | EmptyString => Some acc
  | String c s' =>
      match digit_of c with
      | Some d => index_of_digits s' (10 * acc + d)
      | None => None
      end
  end.

(** the card [N] of a device name [cuda:N] *)
Definition cuda_index (s : string) : option nat :=
  if String.prefix "cuda:" s
  then match substring 5 (String.length s - 5) s with
       | EmptyString => None
       | digits => index_of_digits digits 0
       end
  else None.

(** the [device=] argument of [Tensor.to]: a [torch.device] or its name,
    [cpu], [cuda] (the current card, card 0) or [cuda:N]; the CPU and the
    CUDA cards are the devices of this model *)
Definition as_device (v : value) : result device :=
  match v with
  | VDevice d => Ok d
  | VStr s =>
      if String.eqb s "cpu" || String.eqb s "cpu:0" then Ok cpu
      else if String.eqb s "cuda" then Ok (cuda 0)
      else match cuda_index s with
           | Some i => Ok (cuda i)
           | None => Raise (RuntimeError "Invalid device string")
           end
  | _ => Raise (TypeError "to() received an invalid combination of arguments")
  end.

(** [backend == "numpy"] *)
Definition is_numpy_backend (backend : value) : bool :=
  match backend with
  | VStr s => String.eqb s "numpy"
  | _ => false
  end.

Definition torch_to_backend (x backend device : value) : result value :=
  match x with
  | VTensor x =>
      d <- as_device device ;;
      let x := tensor_to x d in
      if is_numpy_backend backend
      then a <- tensor_numpy x ;; Ok (VArray a)
      else Ok (VTensor x)
  | _ => Raise (AttributeError "object has no attribute 'to'")
  end.

(** ** handle_backend *)

(** the estimator [self]: only its [device] attribute is read here *)
Record estimator : Type := mkEstimator {
  est_device : option string
}.

(** [a, b, c = v] *)
Definition unpack3 (v : value) : result (value * value * value) :=
  match v with
  | VTuple [a; b; c] | VGenerator [a; b; c] => Ok (a, b, c)
  | VTuple _ | VGenerator _ =>
      Raise (ValueError "wrong number of values to unpack")
  | _ => Raise (TypeError "cannot unpack non-iterable object")
  end.

(** [v.detach()] *)
Definition detach (v : value) : result value :=
  match v with
  | VTensor t => Ok (VTensor (tensor_detach t))
  | _ => Raise (AttributeError "object has no attribute 'detach'")
  end.

Definition handle_backend (rt : runtime)
    (func : estimator -> value -> result value)
    (self : estimator) (X : input) : result value :=
  r <- to_torch rt X (est_device self) false true ;;
  '(X_, input_backend, input_device) <- unpack3 r ;;
  out <- func self X_ ;;
  output <- detach out ;;
  torch_to_backend output input_backend input_device.

(** ** Observations on inputs and outputs *)

Definition input_is_complex (x : input) : bool :=
  match x with
  | TorchInput t => is_complex_dtype (t_dtype t)
  | NumpyInput a => is_complex_dtype (np_dtype a)
  end.

Definition input_data (x : input) : list scalar :=
  match x with
  | TorchInput t => t_data t
  | NumpyInput a => np_data a
  end.

Definition input_all_finite (x : input) : bool :=
  forallb scalar_isfinite (input_data x).

Definition input_ndim (x : input) : nat :=
  match x with
  | TorchInput t => List.length (t_shape t)
  | NumpyInput a => List.length (np_shape a)
  end.

(** the messages with which complex or non-finite input is turned away *)
Definition validity_messages : list string :=
  [msg_complex_tensor; msg_infinite; msg_complex_array;
   sk_complex_data; sk_nan; sk_infinity].

Definition is_validity_error (e : exn) : bool :=
  match e with
  | ValueError msg => existsb (String.eqb msg) validity_messages
  | _ => false
  end.

(** the shape tests of [check_array]; a torch tensor meets none *)
Definition input_well_shaped (x : input) : bool :=
  match x with
  | TorchInput _ => true
  | NumpyInput a =>
      match np_shape a with
      | [n_samples; n_features] => (1 <=? n_samples) && (1 <=? n_features)
      | _ => false
      end
  end.

(** the device [to_torch] works on *)
Definition target_device (rt : runtime) (dev : option string) : device :=
  if device_asks_gpu dev && cuda_is_available rt then cuda 0 else cpu.

(** the tensor [to_torch] builds from an input it accepts, before the
    decorator lays it out *)
Definition converted (rt : runtime) (dev : option string) (x : input) : Tensor :=
  let moved :=
    match x with
    | TorchInput t =>
        if negb (device_eqb (t_device t) (target_device rt dev))
        then tensor_to t (target_device rt dev) else t
    | NumpyInput a => tensor_to (from_numpy a) (target_device rt dev)
    end in
  if negb (is_floating_point (t_dtype moved)) then tensor_float rt moved else moved.

(** the backend and device [to_torch] reports for an input *)
Definition backend_of (x : input) : value :=
  match x with
  | TorchInput _ => VStr "torch"
  | NumpyInput _ => VStr "numpy"
  end.

Definition device_of (x : input) : value :=
  match x with
  | TorchInput t => VDevice (t_device t)
  | NumpyInput _ => VStr "cpu"
  end.

(** an output in the backend and on the device of the input *)
Definition same_backend_and_device (x : input) (r : value) : Prop :=
  match x, r with
  | NumpyInput _, VArray _ => True
  | TorchInput t, VTensor t' => t_device t' = t_device t
  | _, _ => False
  end.

(** the output of the wrapped operation, in the backend and on the device
    the input came from *)
Definition in_input_backend (x : input) (out : Tensor) : value :=
  match x with
  | NumpyInput _ => VArray (mkArray (t_dtype out) (t_shape out) (t_data out))
  | TorchInput t => VTensor (tensor_to (tensor_detach out) (t_device t))
  end.

(** the torch tensors inside a value returned by [to_torch] *)
Definition tensors_of (v : value) : list Tensor :=
  let pick out := match out with VTensor t => [t] | _ => [] end in
  match v with
  | VTensor t => [t]
  | VTuple items | VGenerator items => flat_map pick items
  | _ => []
  end.

(** ** Sample inputs *)

Definition host_only : runtime := mkRuntime false (fun q => q).
Definition with_gpu : runtime := mkRuntime true (fun q => q).

Definition fin (z : Z) : scalar := Real (Finite (inject_Z z)).

(** a float64 numpy array of two points in the plane *)
Definition two_points : ndarray :=
  mkArray float64 [2; 2] [fin 0; fin 1; fin 1; fin 0].

(** a float32 numpy vector: one dimension *)
Definition flat_array : ndarray :=
  mkArray float32 [3] [fin 1; fin 2; fin 3].

(** a float32 torch vector on the host: one dimension *)
Definition flat_tensor : Tensor :=
  mkTensor float32 cpu [3] [1] [fin 1; fin 2; fin 3] false.

(** an int64 torch matrix on the second GPU, stored column-major *)
Definition counts : Tensor :=
  mkTensor int64 (cuda 1) [2; 3] [1; 2]
           [fin 1; fin 2; fin 3; fin 4; fin 5; fin 6] false.

(** a float32 torch matrix holding a NaN *)
Definition holed : Tensor :=
  mkTensor float32 cpu [1; 2] [2; 1] [fin 1; Real NaN] false.

(** an operation that hands its input back *)
Definition identity_op (self : estimator) (X : value) : result value := Ok X.

(** ** More observations on inputs *)

Definition input_shape (x : input) : list nat :=
  match x with
  | TorchInput t => t_shape t
  | NumpyInput a => np_shape a
  end.

Definition input_dtype (x : input) : dtype :=
  match x with
  | TorchInput t => t_dtype t
  | NumpyInput a => np_dtype a
  end.

(** two tensors with the same element type, device, sizes, elements and
    autograd flag: they can differ by their strides only *)
Definition same_content (a b : Tensor) : Prop :=
  t_dtype a = t_dtype b /\ t_device a = t_device b /\
  t_shape a = t_shape b /\ t_data a = t_data b /\
  t_requires_grad a = t_requires_grad b.

(** ** keops_unsqueeze and wrap_vectors *)

(** [x.unsqueeze(-1)]: one more dimension, of size 1 and stride 1, at the
    end; the elements stay *)
Definition unsqueeze_last (t : Tensor) : Tensor :=
  mkTensor (t_dtype t) (t_device t) (t_shape t ++ [1]) (t_stride t ++ [1])
           (t_data t) (t_requires_grad t).

Definition msg_keops_shape :=
  "Unsupported input shape for keops_unsqueeze function.".

(** a comprehension over a list whose body can raise: the first failure
    ends it *)
Fixpoint traverse {A B : Type} (f : A -> result B) (l : list A) : result (list B) :=
  match l with
  | [] => Ok []
  | a :: l' => b <- f a ;; bs <- traverse f l' ;; Ok (b :: bs)
  end.

(** [isinstance(v, torch.Tensor)] *)
Definition is_tensor (v : value) : bool :=
  match v with
  | VTensor _ => true
  | _ => false
  end.

(** [isinstance(v, LazyTensor)] *)
Definition is_lazy_tensor (v : value) : bool :=
  match v with
  | VLazyTensor => true
  | _ => false
  end.

Section Keops.

(** What the constructor of pykeops checks on the tensor and axis it is
    given; a lazy tensor is symbolic and what it holds is not followed. *)
Variable lazy_tensor_checks : Tensor -> option nat -> result unit.

(** [LazyTensor(x, axis)] *)
Definition LazyTensor (x : Tensor) (axis : option nat) : result value :=
  _ <- lazy_tensor_checks x axis ;; Ok VLazyTensor.

Definition keops_unsqueeze (arg : Tensor) : result value :=
  match length (t_shape arg) with
  | 1 => LazyTensor (unsqueeze_last arg) (Some 0)
  | 2 => LazyTensor (unsqueeze_last (unsqueeze_last arg)) None
  | _ => Raise (ValueError msg_keops_shape)
  end.

(** the lambda [unsqueeze] of [wrap_vectors], with its [isinstance] guard *)
Definition unsqueeze_arg (use_keops : bool) (arg : value) : result value :=
  match arg with
  | VTensor t =>
      if use_keops then keops_unsqueeze t else Ok (VTensor (unsqueeze_last t))
  | _ => Ok arg
  end.

(** the wrapped function is called as [func(C, *args, **kwargs)]; keyword
    arguments keep their order *)
Definition wrap_vectors
    (func : value -> list value -> list (string * value) -> result value)
    (C : value) (args : list value) (kwargs : list (string * value))
  : result value :=
  let use_keops := is_lazy_tensor C in
  args <- traverse (unsqueeze_arg use_keops) args ;;
  kwargs <- traverse (fun kv => v <- unsqueeze_arg use_keops (snd kv) ;;
                                Ok (fst kv, v)) kwargs ;;
  func C args kwargs.

End Keops.

(** what the dense path of [wrap_vectors] makes of an argument *)
Definition with_trailing_axis (v : value) : value :=
  match v with
  | VTensor t => VTensor (unsqueeze_last t)
  | _ => v
  end.

(** ** sum_all_axis *)

(** the exceptions of this decorator: those of the function it wraps, the
    failed [assert] and the index error of [sum(1)] *)
Inductive raised : Type :=
| Exn (e : exn)
| AssertionError (msg : string)
| IndexError (msg : string).

Definition msg_sum_all_axis :=
  "sum_all_axis can only be applied to a tensor or lazy tensor.".

(** The arithmetic behind [sum]: [reduce_sum d l] is the sum torch computes
    for the elements [l] accumulated in dtype [d] (its order of additions is
    torch's own); [lazy_sum dim] is the KeOps reduction [sum(dim)] of the
    lazy tensor at hand. *)
Record reductions : Type := mkReductions {
  reduce_sum : dtype -> list scalar -> scalar;
  lazy_sum : nat -> result Tensor
}.

(** the dtype of a sum: integers and booleans accumulate in int64 *)
Definition sum_dtype (d : dtype) : dtype :=
  match d with
  | bool_ | uint8 | int8 | int16 | int32 | int64 => int64
  | _ => d
  end.

(** [x.sum(1)]: for sizes [d0, d1, rest...] the entry [(i, k)] sums the
    entries [(i, j, k)] over [j]; a tensor without a dimension 1 raises *)
Definition tensor_sum_dim1 (red : reductions) (t : Tensor) : Tensor + raised :=
  match t_shape t with
  | d0 :: d1 :: rest =>
      let inner := numel rest in
      let d := sum_dtype (t_dtype t) in
      let entry i k :=
        reduce_sum red d
          (map (fun j => nth ((i * d1 + j) * inner + k) (t_data t) (Real NaN))
               (seq 0 d1)) in
      inl (mkTensor d (t_device t) (d0 :: rest) (contiguous_strides (d0 :: rest))
             (flat_map (fun i => map (entry i) (seq 0 inner)) (seq 0 d0))
             (t_requires_grad t))
  | _ => inr (IndexError "Dimension out of range")
  end.

(** [x.sum()]: a tensor without dimensions holding the sum of all elements *)
Definition tensor_sum (red : reductions) (t : Tensor) : Tensor :=
  let d := sum_dtype (t_dtype t) in
  mkTensor d (t_device t) [] [] [reduce_sum red d (t_data t)] (t_requires_grad t).

Definition sum_all_axis {A : Type} (red : reductions) (func : A -> result value)
  : A -> value + raised :=
  fun args =>
    match func args with
    | Raise e => inr (Exn e)
    | Ok (VTensor output) =>
        match tensor_sum_dim1 red output with
        | inl rows => inl (VTensor (tensor_sum red rows))
        | inr r => inr r
        end
    | Ok VLazyTensor =>
        match lazy_sum red 1 with
        | Ok rows => inl (VTensor (tensor_sum red rows))
        | Raise e => inr (Exn e)
        end
    | Ok _ => inr (AssertionError msg_sum_all_axis)
    end.

(** ** More sample inputs *)

(** a complex64 numpy array whose imaginary parts are all zero *)
Definition complex_array : ndarray :=
  mkArray complex64 [1; 2]
          [Complex (Finite 1) (Finite 0); Complex (Finite 2) (Finite 0)].

(** an int32 numpy matrix *)
Definition labels : ndarray :=
  mkArray int32 [2; 2] [fin 0; fin 1; fin 1; fin 0].

(** a float32 torch vector of temperatures that takes part in autograd *)
Definition temperatures : Tensor :=
  mkTensor float32 cpu [3] [1] [fin 1; fin 2; fin 3] true.

(** a float32 torch tensor of three dimensions *)
Definition cube : Tensor :=
  mkTensor float32 cpu [1; 1; 2] [2; 2; 1] [fin 1; fin 2] false.

(** a pykeops constructor that accepts what it is given *)
Definition lenient_checks (x : Tensor) (axis : option nat) : result unit := Ok tt.

(** sums without rounding, for real elements *)
Definition fp_add (a b : fp) : fp :=
  match a, b with
  | Finite x, Finite y => Finite (x + y)
  | NaN, _ | _, NaN => NaN
  | PosInf, NegInf | NegInf, PosInf => NaN
  | PosInf, _ | _, PosInf => PosInf
  | NegInf, _ | _, NegInf => NegInf
  end.

Definition exact_sum (d : dtype) (l : list scalar) : scalar :=
  Real (fold_right (fun s acc => match s with
                                 | Real x => fp_add x acc
                                 | Complex _ _ => NaN
                                 end) (Finite 0) l).

(** exact sums, and a lazy tensor whose reduction over axis 1 is a vector *)
Definition exact_sums : reductions :=
  mkReductions exact_sum (fun _ => Ok flat_tensor).

(** an operation that returns its input together with a label *)
Definition labelled_op (self : estimator) (X : value) : result value :=
  Ok (VTuple [X; VStr "embedding"]).

(** an operation that hands back floating tensors and refuses the rest *)
Definition float_only_op (self : estimator) (X : value) : result value :=
  match X with
  | VTensor t =>
      if is_floating_point (t_dtype t) then Ok X
      else Raise (TypeError "expected a floating point tensor")
  | _ => Raise (TypeError "expected a tensor")
  end.

(** a function of a cost matrix and vectors that returns the cost matrix *)
Definition cost_of (C : value) (args : list value) (kwargs : list (string * value))
  : result value := Ok C.

End Wrappers.

(* ================================================================= *)
(** * Part II: the affinity engine, from its specification *)
(* ================================================================= *)

Module Affinity.

Local Open Scope R_scope.

(** The affinity classes, [log_Pe], [entropy] and
    [bounds_entropic_affinity] are imported by the tests from
    [torchdr.affinity] and [torchdr.utils], which are not among the sources:
    what follows is written from the specification, over exact reals. *)

(** a dense matrix, row by row *)
Definition matrix : Type := list (list R).

Definition sum_list (l : list R) : R := fold_right Rplus 0 l.

(** elementwise operation on two vectors *)
Fixpoint zip_with (f : R -> R -> R) (a b : list R) : list R :=
  match a, b with
  | x :: a', y :: b' => f x y :: zip_with f a' b'
  | _, _ => []
  end.

(** [M.sum(1)]: one sum per row *)
Definition sum_axis1 (M : matrix) : list R := map sum_list M.

(** [M.sum(0)]: one sum per column, for rows of [n] entries *)
Fixpoint sum_axis0 (n : nat) (M : matrix) : list R :=
  match M with
  | [] => repeat 0 n
  | row :: M' => zip_with Rplus row (sum_axis0 n M')
  end.

(** [M.sum(1).sum()], the reduction of [sum_all_axis] in the wrappers *)
Definition sum_all (M : matrix) : R := sum_list (sum_axis1 M).

Definition is_square (n : nat) (M : matrix) : Prop :=
  length M = n /\ Forall (fun row => length row = n) M.

(** ** Ground cost *)




(** ** Kernel transforms *)

(** Modelled from the spec: the kernels of the Gibbs and Student affinities
    ([GibbsAffinity], [StudentAffinity], not among the sources). *)
Inductive kernel : Type := Gibbs | Student.

(** Modelled from the spec: the [dim] option of the kernel affinities (not
    among the sources): axis 0, axis 1, or both. *)
Inductive norm_dim : Type := dim0 | dim1 | dim01.

(** Modelled from the spec: the kernels of Section 4.2 (the affinity classes
    are not among the sources). *)
Definition kernel_value (k : kernel) (c : R) : R :=
  match k with
  | Gibbs => exp (- c)
  | Student => / (1 + c)
  end.

(** Modelled from the spec: the normalisation of Section 4.2 (not among the
    sources): divide by the sum over the chosen axis, so that summing the
    result over that axis gives one, or by the sum of all entries. *)
Definition normalize (n : nat) (dim : norm_dim) (K : matrix) : matrix :=
  match dim with
  | dim0 => let s := sum_axis0 n K in map (fun row => zip_with Rdiv row s) K
  | dim1 => map (fun row => map (fun v => v / sum_list row) row) K
  | dim01 => let s := sum_all K in map (map (fun v => v / s)) K
  end.

(** Modelled from the spec: [transform(C, kernel, dim) -> P] of Section 4.2,
    what [GibbsAffinity] and [StudentAffinity] (not among the sources)
    return for the cost matrix [C] of [n] points. *)
Definition transform (n : nat) (C : matrix) (k : kernel) (dim : norm_dim) : matrix :=
  normalize n dim (map (map (kernel_value k)) C).

(** ** Entropic calibration *)













(** ** Bounds on the root *)









(** ** Invariant of the bisection *)



(** ** Sample data *)

(** the cost matrix of two points at distance one *)
Definition two_point_cost : matrix := [[0; 1]; [1; 0]].







End Affinity.

(* ================================================================= *)
(** * Properties of the wrappers *)
(* ================================================================= *)

Section WrapperProperties.

Import Wrappers.
Local Open Scope string_scope.
Local Open Scope nat_scope.

(** ** Layout *)

Lemma numel_positive_sizes (shape : list nat) :
  numel shape <> 0 -> Forall (fun s => 1 <= s) shape.
Proof.
  induction shape as [|s shape IH]; intros H; constructor.
  - destruct s; [exfalso; apply H; reflexivity | lia].
  - apply IH. intros E. apply H. cbn. unfold numel in E. rewrite E. lia.
Qed.

Lemma contiguous_scan_dense (shape : list nat) :
  Forall (fun s => 1 <= s) shape ->
  contiguous_scan shape (contiguous_strides shape) = Some (dense_extent shape).
Proof.
  induction 1 as [|s shape Hs _ IH]; [reflexivity|].
  cbn [contiguous_strides contiguous_scan]. rewrite IH.
  destruct (Nat.eqb_spec s 1) as [->|Hne].
  - f_equal. unfold dense_extent. cbn [fold_right].
    change (Nat.max 1 1) with 1. lia.
  - rewrite Nat.eqb_refl. f_equal. unfold dense_extent. cbn [fold_right].
    rewrite Nat.max_l by lia. lia.
Qed.

Lemma is_contiguous_contiguous (t : Tensor) : is_contiguous (contiguous t) = true.
Proof.
  unfold contiguous. destruct (is_contiguous t) eqn:E; [exact E|].
  unfold is_contiguous in *. cbn [t_shape t_stride].
  destruct (Nat.eqb_spec (numel (t_shape t)) 0) as [|Hn]; [reflexivity|].
  rewrite contiguous_scan_dense by (apply numel_positive_sizes; exact Hn).
  reflexivity.
Qed.

Lemma contiguous_dtype (t : Tensor) : t_dtype (contiguous t) = t_dtype t.
Proof. unfold contiguous. destruct (is_contiguous t); reflexivity. Qed.

Lemma contiguous_device (t : Tensor) : t_device (contiguous t) = t_device t.
Proof. unfold contiguous. destruct (is_contiguous t); reflexivity. Qed.

(** ** What [to_torch] computes *)

Lemma check_array_accepts (a : ndarray) :
  is_complex_dtype (np_dtype a) = false ->
  forallb scalar_isfinite (np_data a) = true ->
  input_well_shaped (NumpyInput a) = true ->
  check_array a = Ok a.
Proof.
  intros Hc Hf Hs. unfold check_array. rewrite Hc.
  unfold input_well_shaped in Hs.
  destruct (np_shape a) as [|n [|m [|? ?]]]; try discriminate.
  rewrite Hf. cbn [negb].
  apply andb_true_iff in Hs as [Hn Hm].
  apply Nat.leb_le in Hn, Hm.
  destruct (Nat.ltb_spec n 1); [lia|].
  destruct (Nat.ltb_spec m 1); [lia|]. reflexivity.
Qed.

Lemma check_array_rejects (a : ndarray) :
  is_complex_dtype (np_dtype a) = true \/
  forallb scalar_isfinite (np_data a) = false \/
  input_well_shaped (NumpyInput a) = false ->
  exists msg, check_array a = Raise (ValueError msg).
Proof.
  intros H. unfold check_array.
  destruct (is_complex_dtype (np_dtype a)) eqn:Hc; [eauto|].
  unfold input_is_complex, input_all_finite, input_data, input_well_shaped in H.
  destruct (np_shape a) as [|n [|m [|? ?]]]; eauto.
  destruct (forallb scalar_isfinite (np_data a)) eqn:Hf; cbn [negb];
    [|destruct (existsb scalar_isnan (np_data a)); eauto].
  destruct (Nat.ltb_spec n 1); [eauto|].
  destruct (Nat.ltb_spec m 1); [eauto|].
  exfalso. destruct H as [H|[H|H]]; try discriminate.
  apply andb_false_iff in H as [H|H]; apply Nat.leb_gt in H; lia.
Qed.

Lemma np_iscomplex_any_real (a : ndarray) :
  is_complex_dtype (np_dtype a) = false -> np_iscomplex_any a = false.
Proof. intros H. unfold np_iscomplex_any. rewrite H. reflexivity. Qed.

(** an accepted input: the converted tensor, laid out by the decorator *)
Lemma to_torch_accepts rt x device verbose rbd :
  input_is_complex x = false ->
  input_all_finite x = true ->
  input_well_shaped x = true ->
  to_torch rt x device verbose rbd =
  Ok (if rbd
      then VGenerator [VTensor (contiguous (converted rt device x));
                       backend_of x; device_of x]
      else VTensor (contiguous (converted rt device x))).
Proof.
  intros Hc Hf Hs. unfold to_torch, contiguous_output, to_torch_body.
  destruct x as [t|a]; cbn in Hc, Hf.
  - unfold is_complex, isfinite_all. rewrite Hc, Hf. cbn [negb bind].
    unfold converted, target_device.
    destruct rbd; reflexivity.
  - rewrite (check_array_accepts a Hc Hf Hs). cbn [bind].
    rewrite (np_iscomplex_any_real a Hc).
    unfold converted, target_device, np_copy.
    destruct rbd; reflexivity.
Qed.

(** a rejected input: always a [ValueError] *)
Lemma to_torch_rejects rt x device verbose rbd :
  input_is_complex x = true \/ input_all_finite x = false \/
  input_well_shaped x = false ->
  exists msg, to_torch rt x device verbose rbd = Raise (ValueError msg).
Proof.
  intros H. unfold to_torch, contiguous_output, to_torch_body.
  destruct x as [t|a].
  - cbn in H. unfold is_complex, isfinite_all.
    destruct (is_complex_dtype (t_dtype t)) eqn:Hc; [cbn; eauto|].
    destruct (forallb scalar_isfinite (t_data t)) eqn:Hf; [|cbn; eauto].
    destruct H as [H|[H|H]]; discriminate.
  - destruct (check_array_rejects a H) as [msg ->]. cbn. eauto.
Qed.

Lemma to_torch_cases (x : input) :
  (input_is_complex x = false /\ input_all_finite x = true /\
   input_well_shaped x = true) \/
  (input_is_complex x = true \/ input_all_finite x = false \/
   input_well_shaped x = false).
Proof.
  destruct (input_is_complex x), (input_all_finite x), (input_well_shaped x);
    auto.
Qed.

Lemma converted_floating rt device x :
  is_floating_point (t_dtype (converted rt device x)) = true.
Proof.
  unfold converted.
  match goal with |- context [negb (is_floating_point (t_dtype ?m))] =>
    destruct (is_floating_point (t_dtype m)) eqn:E end; cbn [negb]; auto.
Qed.

Lemma is_validity_error_shape (msg : string) :
  In msg [sk_scalar_array; sk_1d_array; sk_nd_array; sk_no_sample; sk_no_feature] ->
  is_validity_error (ValueError msg) = false.
Proof.
  cbn [In]. intros [<-|[<-|[<-|[<-|[<-|[]]]]]]; reflexivity.
Qed.

Lemma check_array_shape_error (a : ndarray) (e : exn) :
  is_complex_dtype (np_dtype a) = false ->
  forallb scalar_isfinite (np_data a) = true ->
  check_array a = Raise e ->
  is_validity_error e = false.
Proof.
  intros Hc Hf. unfold check_array. rewrite Hc.
  destruct (np_shape a) as [|n [|m [|? ?]]].
  1, 2, 4: intros [= <-]; apply is_validity_error_shape; cbn; tauto.
  rewrite Hf. cbn [negb].
  destruct (n <? 1); [intros [= <-]; apply is_validity_error_shape; cbn; tauto|].
  destruct (m <? 1); [intros [= <-]; apply is_validity_error_shape; cbn; tauto|].
  discriminate.
Qed.

(** ** The claims on [to_torch] and [handle_backend] *)

(** C7.  Whatever the device and the flags, [to_torch] raises a
    [ValueError], and so returns no tensor, as soon as its input is complex
    (a complex dtype, tensor or array) or holds a non-finite element; and
    on a real, finite input it never raises the error that turns complex or
    non-finite input away. *)
Theorem to_torch_input_validity rt x device verbose rbd :
  (input_is_complex x = true \/ input_all_finite x = false ->
   exists msg, to_torch rt x device verbose rbd = Raise (ValueError msg)) /\
  (input_is_complex x = false -> input_all_finite x = true ->
   forall e, to_torch rt x device verbose rbd = Raise e ->
             is_validity_error e = false).
Proof.
  split.
  - intros H. apply to_torch_rejects. tauto.
  - intros Hc Hf e.
    destruct (input_well_shaped x) eqn:Hs.
    + rewrite (to_torch_accepts rt x device verbose rbd Hc Hf Hs). discriminate.
    + destruct x as [t|a]; [discriminate|].
      unfold to_torch, contiguous_output, to_torch_body.
      cbn in Hc. unfold input_all_finite, input_data in Hf.
      destruct (check_array a) as [a'|e'] eqn:Hck.
      * exfalso. destruct (check_array_rejects a) as [msg Hm]; [tauto|].
        congruence.
      * cbn. intros [= <-]. exact (check_array_shape_error a e' Hc Hf Hck).
Qed.

Lemma to_torch_input_validity_witness :
  (exists msg, to_torch host_only (TorchInput holed) (Some "cpu") true false
               = Raise (ValueError msg)) /\
  (forall e, to_torch host_only (NumpyInput flat_array) None true false = Raise e ->
             is_validity_error e = false).
Proof.
  split.
  - apply (proj1 (to_torch_input_validity host_only (TorchInput holed)
                    (Some "cpu") true false)).
    right. reflexivity.
  - apply (proj2 (to_torch_input_validity host_only (NumpyInput flat_array)
                    None true false)); reflexivity.
Defined.

(** C8, as the claim has it, fails: a one-dimensional torch tensor that is
    real and finite goes through [to_torch], and through an operation
    wrapped by [handle_backend], without any error. *)
Lemma flat_tensor_is_not_rejected :
  input_ndim (TorchInput flat_tensor) <> 2 /\
  to_torch host_only (TorchInput flat_tensor) (Some "cpu") true false
    = Ok (VTensor flat_tensor) /\
  handle_backend host_only identity_op (mkEstimator None) (TorchInput flat_tensor)
    = Ok (VTensor flat_tensor).
Proof.
  split; [cbn; lia|]. split; reflexivity.
Qed.

(** C8, amended.  An input that arrives as a numpy array and is not
    two-dimensional is turned away with a [ValueError], by [to_torch] and so
    by every operation wrapped by [handle_backend]; an input that arrives as
    a torch tensor is only checked to be real and finite, and is accepted
    whatever its shape. *)
Theorem shape_is_validated_for_arrays_only rt device verbose rbd func self :
  (forall a, length (np_shape a) <> 2 ->
     exists msg,
       to_torch rt (NumpyInput a) device verbose rbd = Raise (ValueError msg) /\
       handle_backend rt func self (NumpyInput a) = Raise (ValueError msg)) /\
  (forall t, is_complex t = false -> isfinite_all t = true ->
     exists v, to_torch rt (TorchInput t) device verbose rbd = Ok v).
Proof.
  split.
  - intros a Hn.
    destruct (check_array_rejects a) as [msg Hm].
    { right. right. unfold input_well_shaped.
      destruct (np_shape a) as [|n [|m [|? ?]]]; try reflexivity.
      exfalso. apply Hn. reflexivity. }
    exists msg. unfold handle_backend, to_torch, contiguous_output, to_torch_body.
    rewrite Hm. split; reflexivity.
  - intros t Hc Hf. eexists.
    apply (to_torch_accepts rt (TorchInput t) device verbose rbd); auto.
Qed.

Lemma shape_is_validated_for_arrays_only_witness :
  (exists msg,
     to_torch host_only (NumpyInput flat_array) None true false
       = Raise (ValueError msg) /\
     handle_backend host_only identity_op (mkEstimator None) (NumpyInput flat_array)
       = Raise (ValueError msg)) /\
  (exists v, to_torch host_only (TorchInput flat_tensor) None true false = Ok v).
Proof.
  split.
  - apply (proj1 (shape_is_validated_for_arrays_only host_only None true false
                    identity_op (mkEstimator None)) flat_array).
    cbn. lia.
  - apply (proj2 (shape_is_validated_for_arrays_only host_only None true false
                    identity_op (mkEstimator None)) flat_tensor); reflexivity.
Defined.

(** C9.  An operation wrapped by [handle_backend] answers in the backend and
    on the device of its input: whenever the wrapped call returns, a numpy
    input gets a numpy array and a torch tensor on device [d] gets a torch
    tensor on [d]; and it does return, with the operation's own output
    converted back, whenever [to_torch] accepts the input and the operation
    returns a tensor. *)
Theorem handle_backend_round_trip rt func self X :
  (forall r, handle_backend rt func self X = Ok r ->
             same_backend_and_device X r) /\
  (forall v out,
     to_torch rt X (est_device self) false true = Ok v ->
     func self (VTensor (contiguous (converted rt (est_device self) X)))
       = Ok (VTensor out) ->
     handle_backend rt func self X = Ok (in_input_backend X out)).
Proof.
  unfold handle_backend.
  destruct (to_torch_cases X) as [(Hc & Hf & Hs)|Hrej].
  - rewrite (to_torch_accepts rt X (est_device self) false true Hc Hf Hs).
    cbn [bind unpack3].
    destruct (func self (VTensor (contiguous (converted rt (est_device self) X))))
      as [o|e]; cbn [bind].
    2: { split; [discriminate|]. intros v out _ [=]. }
    destruct o as [o| | | | | |]; cbn [detach bind];
      try (split; [discriminate|]; intros v out _ [=]).
    assert (Hres : torch_to_backend (VTensor (tensor_detach o)) (backend_of X)
                     (device_of X) = Ok (in_input_backend X o)).
    { destruct X as [t|a]; reflexivity. }
    rewrite Hres. split.
    + intros r [= <-]. destruct X as [t|a]; cbn; auto.
    + intros v out _ [= ->]. reflexivity.
  - destruct (to_torch_rejects rt X (est_device self) false true Hrej) as [msg ->].
    cbn [bind]. split; [discriminate|]. intros v out [=].
Qed.

Lemma handle_backend_round_trip_witness :
  same_backend_and_device (TorchInput counts)
    (VTensor (tensor_to (tensor_detach
       (contiguous (converted with_gpu (Some "gpu") (TorchInput counts)))) (cuda 1))) /\
  handle_backend host_only identity_op (mkEstimator (Some "cuda")) (NumpyInput two_points)
    = Ok (VArray two_points).
Proof.
  split.
  - apply (proj1 (handle_backend_round_trip with_gpu identity_op
                    (mkEstimator (Some "gpu")) (TorchInput counts))).
    reflexivity.
  - apply (proj2 (handle_backend_round_trip host_only identity_op
                    (mkEstimator (Some "cuda")) (NumpyInput two_points))
             (VGenerator [VTensor (from_numpy two_points); VStr "numpy"; VStr "cpu"])
             (from_numpy two_points)); reflexivity.
Defined.

(** C10.  Every tensor [to_torch] returns, alone or inside the triple asked
    for with [return_backend_device], has a floating-point dtype and is
    contiguous; and [to_torch] turns an input away only when it is complex,
    holds a non-finite element or, for a numpy array, fails the shape tests
    of [check_array]: never because its elements are integers. *)
Theorem to_torch_returns_contiguous_floats rt x device verbose rbd :
  match to_torch rt x device verbose rbd with
  | Ok v =>
      tensors_of v <> [] /\
      Forall (fun t => is_floating_point (t_dtype t) = true /\
                       is_contiguous t = true) (tensors_of v)
  | Raise _ =>
      input_is_complex x = true \/ input_all_finite x = false \/
      input_well_shaped x = false
  end.
Proof.
  destruct (to_torch_cases x) as [(Hc & Hf & Hs)|Hrej].
  - rewrite (to_torch_accepts rt x device verbose rbd Hc Hf Hs).
    assert (Hfl := converted_floating rt device x).
    assert (Hok : is_floating_point (t_dtype (contiguous (converted rt device x))) = true /\
                  is_contiguous (contiguous (converted rt device x)) = true).
    { split; [rewrite contiguous_dtype; exact Hfl | apply is_contiguous_contiguous]. }
    destruct rbd.
    + assert (Ht : tensors_of (VGenerator [VTensor (contiguous (converted rt device x));
                                           backend_of x; device_of x])
                   = [contiguous (converted rt device x)]).
      { destruct x; reflexivity. }
      rewrite Ht. split; [discriminate|]. constructor; [exact Hok|constructor].
    + cbn [tensors_of]. split; [discriminate|]. constructor; [exact Hok|constructor].
  - destruct (to_torch_rejects rt x device verbose rbd Hrej) as [msg ->].
    exact Hrej.
Qed.

(** an int64 tensor stored column-major on a GPU comes back as a contiguous
    float32 tensor on the host *)
Example to_torch_counts :
  to_torch with_gpu (TorchInput counts) (Some "cpu") true false
  = Ok (VTensor (mkTensor float32 cpu [2; 3] [3; 1]
                   [fin 1; fin 2; fin 3; fin 4; fin 5; fin 6] false)).
Proof. reflexivity. Qed.

End WrapperProperties.

(* ================================================================= *)
(** * Properties of the affinity engine *)
(* ================================================================= *)

Section AffinityProperties.

Import Affinity.
Local Open Scope R_scope.

(** ** Sums *)

Lemma sum_list_scaled (s : R) (l : list R) :
  sum_list (map (fun v => v / s) l) = sum_list l / s.
Proof.
  induction l as [|x l IH]; cbn [map sum_list fold_right].
  - unfold Rdiv. ring.
  - fold (sum_list (map (fun v => v / s) l)). fold (sum_list l).
    rewrite IH. unfold Rdiv. ring.
Qed.

Lemma sum_list_positive (l : list R) :
  l <> [] -> Forall (fun v => 0 < v) l -> 0 < sum_list l.
Proof.
  intros Hne Hpos. destruct l as [|x l]; [congruence|]. clear Hne.
  revert x Hpos. induction l as [|y l IH]; intros x Hpos.
  - inversion Hpos; subst. cbn. lra.
  - inversion Hpos as [|? ? Hx Hrest]; subst.
    specialize (IH y Hrest). cbn [sum_list fold_right] in *. lra.
Qed.


Lemma zip_with_length (f : R -> R -> R) (a b : list R) (n : nat) :
  length a = n -> length b = n -> length (zip_with f a b) = n.
Proof.
  revert b n. induction a as [|x a IH]; intros [|y b] n Ha Hb;
    cbn in *; try congruence.
  destruct n as [|n]; [discriminate|]. f_equal. apply IH; congruence.
Qed.

Lemma sum_axis0_length (n : nat) (M : matrix) :
  Forall (fun row => length row = n) M -> length (sum_axis0 n M) = n.
Proof.
  induction 1 as [|row M Hrow _ IH]; cbn [sum_axis0].
  - apply repeat_length.
  - apply zip_with_length; assumption.
Qed.

(** dividing every row by [s], entry by entry, divides the column sums *)
Lemma sum_axis0_scaled (n : nat) (s : list R) (M : matrix) :
  length s = n -> Forall (fun row => length row = n) M ->
  sum_axis0 n (map (fun row => zip_with Rdiv row s) M)
  = zip_with Rdiv (sum_axis0 n M) s.
Proof.
  intros Hs HM. induction HM as [|row M Hrow HM IH]; cbn [map sum_axis0].
  - subst n. clear. induction s as [|y s IH]; [reflexivity|].
    cbn [length repeat zip_with]. rewrite <- IH. f_equal. unfold Rdiv. ring.
  - rewrite IH. pose proof (sum_axis0_length n M HM) as Hl.
    clear IH HM. revert Hl Hs Hrow. generalize (sum_axis0 n M) as acc.
    revert s n. induction row as [|x row IHr]; intros s n acc Hl Hs Hrow.
    + reflexivity.
    + destruct s as [|y s]; destruct acc as [|z acc]; cbn in *; try congruence.
      destruct n as [|n]; [discriminate|].
      f_equal; [unfold Rdiv; ring|]. apply (IHr s n); congruence.
Qed.

Lemma zip_with_div_self (s : list R) :
  Forall (fun v => 0 < v) s -> zip_with Rdiv s s = repeat 1 (length s).
Proof.
  induction 1 as [|v s Hv _ IH]; [reflexivity|].
  cbn [zip_with length repeat]. rewrite IH. f_equal. field. lra.
Qed.

(** the column sums of a matrix of positive entries with at least one row *)
Lemma sum_axis0_positive (n : nat) (M : matrix) :
  M <> [] ->
  Forall (fun row => length row = n) M ->
  Forall (Forall (fun v => 0 < v)) M ->
  Forall (fun v => 0 < v) (sum_axis0 n M).
Proof.
  intros Hne Hlen Hpos.
  assert (Hweak : forall M', Forall (fun row => length row = n) M' ->
            Forall (Forall (fun v => 0 < v)) M' ->
            Forall (fun v => 0 <= v) (sum_axis0 n M')).
  { clear. intros M' Hlen Hpos. induction Hlen as [|row M' Hrow Hlen IH].
    - cbn. clear. induction n; cbn; constructor; [lra|assumption].
    - inversion Hpos as [|? ? Hr Hrest]; subst. specialize (IH Hrest).
      cbn [sum_axis0]. revert IH. generalize (sum_axis0 (length row) M') as acc.
      clear -Hr. induction Hr as [|x row Hx _ IHr]; intros acc Hacc;
        [constructor|].
      destruct acc as [|z acc]; [constructor|].
      inversion Hacc; subst. cbn [zip_with]. constructor; [lra|auto]. }
  destruct M as [|row M]; [congruence|].
  inversion Hlen as [|? ? Hrow Hlen']; subst.
  inversion Hpos as [|? ? Hr Hrest]; subst.
  pose proof (Hweak M Hlen' Hrest) as Hacc.
  pose proof (sum_axis0_length (length row) M Hlen') as Hl.
  cbn [sum_axis0]. revert Hacc Hl. generalize (sum_axis0 (length row) M) as acc.
  clear -Hr. induction Hr as [|x row Hx _ IHr]; intros acc Hacc Hl;
    [constructor|].
  destruct acc as [|z acc]; [discriminate|].
  inversion Hacc; subst. cbn [zip_with]. constructor; [lra|].
  apply IHr; [assumption|]. cbn in Hl. congruence.
Qed.

(** ** Kernel transforms *)

Lemma kernel_value_positive (k : kernel) (c : R) :
  0 <= c -> 0 < kernel_value k c.
Proof.
  intros Hc. destruct k; cbn.
  - apply exp_pos.
  - apply Rinv_0_lt_compat. lra.
Qed.

Lemma kernel_matrix_positive (k : kernel) (C : matrix) :
  Forall (Forall (fun c => 0 <= c)) C ->
  Forall (Forall (fun v => 0 < v)) (map (map (kernel_value k)) C).
Proof.
  intros H. apply Forall_map. eapply Forall_impl; [|exact H].
  intros row Hrow. apply Forall_map. eapply Forall_impl; [|exact Hrow].
  intros c. apply kernel_value_positive.
Qed.

Lemma kernel_matrix_square (k : kernel) (n : nat) (C : matrix) :
  is_square n C -> is_square n (map (map (kernel_value k)) C).
Proof.
  intros [Hn Hrows]. split; [rewrite length_map; exact Hn|].
  apply Forall_map. eapply Forall_impl; [|exact Hrows].
  intros row Hrow. cbn. rewrite length_map. exact Hrow.
Qed.

Lemma row_of_positive_length (n : nat) (row : list R) :
  (0 < n)%nat -> length row = n -> row <> [].
Proof. intros Hn Hl ->. cbn in Hl. lia. Qed.

Lemma map_all_ones {A : Type} (g : A -> R) (l : list A) :
  Forall (fun a => g a = 1) l -> map g l = repeat 1 (length l).
Proof.
  induction 1 as [|a l Ha _ IH]; [reflexivity|].
  cbn [map length repeat]. rewrite Ha, IH. reflexivity.
Qed.

Lemma quotient_nonneg (v s : R) : 0 < v -> 0 < s -> 0 <= v / s.
Proof.
  intros Hv Hs. apply Rlt_le. apply Rdiv_lt_0_compat; assumption.
Qed.

Lemma sum_all_positive (n : nat) (K : matrix) :
  (0 < n)%nat -> is_square n K -> Forall (Forall (fun v => 0 < v)) K ->
  0 < sum_all K.
Proof.
  intros Hn [Hlen Hrows] Hpos. unfold sum_all, sum_axis1.
  apply sum_list_positive.
  - destruct K; [cbn in Hlen; lia | discriminate].
  - apply Forall_map. rewrite Forall_forall in *. intros row Hin.
    apply sum_list_positive; [|auto].
    apply (row_of_positive_length n); auto.
Qed.

Lemma normalize_square (n : nat) (dim : norm_dim) (K : matrix) :
  is_square n K -> is_square n (normalize n dim K).
Proof.
  intros [Hlen Hrows].
  destruct dim; cbn [normalize]; (split; [rewrite length_map; exact Hlen|]);
    apply Forall_map; (eapply Forall_impl; [|exact Hrows]);
    intros row Hrow; cbn.
  - apply zip_with_length; [exact Hrow|]. apply sum_axis0_length. exact Hrows.
  - rewrite length_map. exact Hrow.
  - rewrite length_map. exact Hrow.
Qed.

Lemma zip_with_div_nonneg (row s : list R) :
  Forall (fun v => 0 < v) row -> Forall (fun v => 0 < v) s ->
  Forall (fun p => 0 <= p) (zip_with Rdiv row s).
Proof.
  intros Hrow. revert s. induction Hrow as [|x row Hx _ IH]; intros s Hs;
    [constructor|].
  destruct Hs as [|y s Hy Hs]; [constructor|].
  cbn [zip_with]. constructor; [apply quotient_nonneg; assumption|auto].
Qed.

Lemma normalize_nonneg (n : nat) (dim : norm_dim) (K : matrix) :
  (0 < n)%nat -> is_square n K -> Forall (Forall (fun v => 0 < v)) K ->
  Forall (Forall (fun p => 0 <= p)) (normalize n dim K).
Proof.
  intros Hn Hsq Hpos. pose proof Hsq as [Hlen Hrows].
  assert (HK : K <> []) by (destruct K; [cbn in Hlen; lia | discriminate]).
  pose proof (proj1 (Forall_forall _ _) Hpos) as Hpos'.
  pose proof (proj1 (Forall_forall _ _) Hrows) as Hrows'.
  destruct dim; cbn [normalize]; apply Forall_map;
    apply Forall_forall; intros row Hin.
  - apply zip_with_div_nonneg; [exact (Hpos' row Hin)|].
    apply sum_axis0_positive; assumption.
  - apply Forall_map. apply Forall_forall. intros v Hv.
    apply quotient_nonneg.
    + exact (proj1 (Forall_forall _ _) (Hpos' row Hin) v Hv).
    + apply sum_list_positive; [|exact (Hpos' row Hin)].
      apply (row_of_positive_length n); auto.
  - apply Forall_map. apply Forall_forall. intros v Hv.
    apply quotient_nonneg.
    + exact (proj1 (Forall_forall _ _) (Hpos' row Hin) v Hv).
    + apply (sum_all_positive n); assumption.
Qed.

Lemma normalize_sums (n : nat) (dim : norm_dim) (K : matrix) :
  (0 < n)%nat -> is_square n K -> Forall (Forall (fun v => 0 < v)) K ->
  match dim with
  | dim0 => sum_axis0 n (normalize n dim K) = repeat 1 n
  | dim1 => sum_axis1 (normalize n dim K) = repeat 1 n
  | dim01 => sum_all (normalize n dim K) = 1
  end.
Proof.
  intros Hn Hsq Hpos. pose proof Hsq as [Hlen Hrows].
  assert (HK : K <> []) by (destruct K; [cbn in Hlen; lia | discriminate]).
  destruct dim; cbn [normalize].
  - rewrite sum_axis0_scaled; [|apply sum_axis0_length; exact Hrows|exact Hrows].
    rewrite zip_with_div_self by (apply sum_axis0_positive; assumption).
    rewrite sum_axis0_length by exact Hrows. reflexivity.
  - unfold sum_axis1. rewrite map_map.
    rewrite map_all_ones; [rewrite Hlen; reflexivity|].
    pose proof (proj1 (Forall_forall _ _) Hpos) as Hpos'.
    pose proof (proj1 (Forall_forall _ _) Hrows) as Hrows'.
    apply Forall_forall. intros row Hin.
    rewrite sum_list_scaled. field.
    apply Rgt_not_eq. apply sum_list_positive; [|exact (Hpos' row Hin)].
    apply (row_of_positive_length n); auto.
  - pose proof (sum_all_positive n K Hn Hsq Hpos) as Hs.
    unfold sum_all at 1. unfold sum_axis1. rewrite map_map.
    rewrite (map_ext _ (fun row => sum_list row / sum_all K))
      by (intros row; apply sum_list_scaled).
    rewrite <- (map_map sum_list (fun v => v / sum_all K)).
    rewrite sum_list_scaled. fold (sum_axis1 K). fold (sum_all K).
    field. lra.
Qed.

(** C6.  For a cost matrix [C] of [n] points ([n] by [n], [n] positive,
    nonnegative entries), either kernel and either axis or both, the kernel
    transform is [n] by [n], has nonnegative entries and sums to one along
    the chosen axis: every sum over axis 0 for [dim0], every sum over axis 1
    for [dim1], the sum of all entries for both. *)
Theorem kernel_transform_contract (n : nat) (C : matrix) (k : kernel) (dim : norm_dim) :
  (0 < n)%nat -> is_square n C -> Forall (Forall (fun c => 0 <= c)) C ->
  is_square n (transform n C k dim) /\
  Forall (Forall (fun p => 0 <= p)) (transform n C k dim) /\
  match dim with
  | dim0 => sum_axis0 n (transform n C k dim) = repeat 1 n
  | dim1 => sum_axis1 (transform n C k dim) = repeat 1 n
  | dim01 => sum_all (transform n C k dim) = 1
  end.
Proof.
  intros Hn Hsq Hnonneg. unfold transform.
  pose proof (kernel_matrix_square k n C Hsq) as HKsq.
  pose proof (kernel_matrix_positive k C Hnonneg) as HKpos.
  split; [apply normalize_square; exact HKsq|].
  split; [apply normalize_nonneg; assumption|].
  pose proof (normalize_sums n dim _ Hn HKsq HKpos) as Hsum.
  destruct dim; exact Hsum.
Qed.

Lemma kernel_transform_contract_witness :
  is_square 2 (transform 2 two_point_cost Student dim0) /\
  Forall (Forall (fun p => 0 <= p)) (transform 2 two_point_cost Student dim0) /\
  sum_axis0 2 (transform 2 two_point_cost Student dim0) = repeat 1 2.
Proof.
  apply (kernel_transform_contract 2 two_point_cost Student dim0).
  - lia.
  - split; [reflexivity|]. repeat constructor.
  - repeat constructor; lra.
Defined.

(** ** The softmax family [log_Pe] *)







(** ** Identical points *)











(** ** The entropy of a softmax row *)
















(** ** Smallest, second smallest and largest cost of a row *)
















(** ** Bounds on the entropy of a row *)







(** ** The bounds bracket the root *)



(** ** Continuity of the entropy gap in the temperature *)








(** ** The batched bisection *)











(** ** Runs of the calibration *)











(** ** Points on distinct axes *)






















(** ** The entropic affinity *)










(** ** A dataset the calibration treats *)








(** ** Brackets and roots *)




End AffinityProperties.

(* ================================================================= *)
(** * Further properties of the wrappers *)
(* ================================================================= *)

Section WrapperCoverage.

Import Wrappers.
Local Open Scope string_scope.
Local Open Scope nat_scope.

(** ** Shared facts *)

Lemma device_eqb_eq (a b : device) : device_eqb a b = true <-> a = b.
Proof.
  destruct a as [|i], b as [|j]; cbn; split; intros H;
    try reflexivity; try discriminate.
  - apply Nat.eqb_eq in H. congruence.
  - injection H as ->. apply Nat.eqb_refl.
Qed.

Lemma contiguous_same_content (t : Tensor) : same_content (contiguous t) t.
Proof.
  unfold contiguous, same_content. destruct (is_contiguous t); cbn; auto.
Qed.

Lemma contiguous_fixed (t : Tensor) : is_contiguous t = true -> contiguous t = t.
Proof. intros H. unfold contiguous. rewrite H. reflexivity. Qed.

Lemma floating_is_real (d : dtype) :
  is_floating_point d = true -> is_complex_dtype d = false.
Proof. destruct d; cbn; congruence. Qed.

Lemma cast_float32_finite (rt : runtime) (s : scalar) :
  scalar_isfinite s = true -> scalar_isfinite (cast_float32 rt s) = true.
Proof.
  destruct s as [[q| | |]|re im]; cbn; try congruence.
  intros H. apply andb_true_iff in H. tauto.
Qed.

Lemma converted_device rt dev x :
  t_device (converted rt dev x) = target_device rt dev.
Proof.
  assert (Hmoved : forall m, t_device m = target_device rt dev ->
            t_device (if negb (is_floating_point (t_dtype m))
                      then tensor_float rt m else m) = target_device rt dev).
  { intros m Hm. destruct (negb (is_floating_point (t_dtype m))); exact Hm. }
  unfold converted. apply Hmoved. destruct x as [t|a]; [|reflexivity].
  destruct (device_eqb (t_device t) (target_device rt dev)) eqn:E; cbn [negb].
  - apply device_eqb_eq. exact E.
  - reflexivity.
Qed.

Lemma converted_shape rt dev x : t_shape (converted rt dev x) = input_shape x.
Proof.
  unfold converted. destruct x as [t|a]; cbn [input_shape].
  - destruct (negb (device_eqb (t_device t) (target_device rt dev)));
      match goal with |- context [negb (is_floating_point ?d)] =>
        destruct (negb (is_floating_point d)) end; reflexivity.
  - match goal with |- context [negb (is_floating_point ?d)] =>
      destruct (negb (is_floating_point d)) end; reflexivity.
Qed.

(** floating inputs keep their dtype and elements, the others are cast *)
Lemma converted_elements rt dev x :
  if is_floating_point (input_dtype x)
  then t_dtype (converted rt dev x) = input_dtype x /\
       t_data (converted rt dev x) = input_data x
  else t_dtype (converted rt dev x) = float32 /\
       t_data (converted rt dev x) = map (cast_float32 rt) (input_data x).
Proof.
  unfold converted. destruct x as [t|a]; cbn [input_dtype input_data].
  - destruct (negb (device_eqb (t_device t) (target_device rt dev)));
      cbn [tensor_to t_dtype];
      destruct (is_floating_point (t_dtype t)); cbn; auto.
  - cbn [tensor_to from_numpy t_dtype].
    destruct (is_floating_point (np_dtype a)); cbn; auto.
Qed.

Lemma converted_finite rt dev x :
  input_all_finite x = true -> isfinite_all (converted rt dev x) = true.
Proof.
  intros Hf. unfold isfinite_all. pose proof (converted_elements rt dev x) as H.
  destruct (is_floating_point (input_dtype x)); destruct H as [_ ->].
  - exact Hf.
  - rewrite forallb_forall. intros s Hs. apply in_map_iff in Hs as (s0 & <- & Hs0).
    apply cast_float32_finite.
    unfold input_all_finite in Hf. rewrite forallb_forall in Hf. auto.
Qed.

(** what a call of [to_torch] that returns has checked and built *)
Lemma to_torch_returns rt x device verbose rbd v :
  to_torch rt x device verbose rbd = Ok v ->
  input_is_complex x = false /\ input_all_finite x = true /\
  input_well_shaped x = true /\
  v = (if rbd
       then VGenerator [VTensor (contiguous (converted rt device x));
                        backend_of x; device_of x]
       else VTensor (contiguous (converted rt device x))).
Proof.
  destruct (to_torch_cases x) as [(Hc & Hf & Hs)|Hrej].
  - rewrite (to_torch_accepts rt x device verbose rbd Hc Hf Hs).
    intros [= <-]. auto.
  - destruct (to_torch_rejects rt x device verbose rbd Hrej) as [msg ->].
    discriminate.
Qed.

Lemma tensors_of_returned rt device x (rbd : bool) :
  tensors_of (if rbd
              then VGenerator [VTensor (contiguous (converted rt device x));
                               backend_of x; device_of x]
              else VTensor (contiguous (converted rt device x)))
  = [contiguous (converted rt device x)].
Proof. destruct rbd, x; reflexivity. Qed.

(** the way back never fails on a detached tensor *)
Lemma convert_back_succeeds (X : input) (o : Tensor) :
  torch_to_backend (VTensor (tensor_detach o)) (backend_of X) (device_of X)
  = Ok (in_input_backend X o).
Proof. destruct X; reflexivity. Qed.

(** ** to_torch *)

(** X1.  [to_torch] is idempotent: the tensor it returns, given back to it
    with the same device, comes out as it is. *)
Theorem to_torch_idempotent rt x device verbose verbose' t :
  to_torch rt x device verbose false = Ok (VTensor t) ->
  to_torch rt (TorchInput t) device verbose' false = Ok (VTensor t).
Proof.
  intros H. apply to_torch_returns in H as (Hc & Hf & Hs & [= ->]).
  set (t := contiguous (converted rt device x)).
  assert (Hfl : is_floating_point (t_dtype t) = true).
  { subst t. rewrite contiguous_dtype. apply converted_floating. }
  assert (Hdev : t_device t = target_device rt device).
  { subst t. rewrite contiguous_device. apply converted_device. }
  assert (Hfin : isfinite_all t = true).
  { subst t. unfold isfinite_all.
    destruct (contiguous_same_content (converted rt device x))
      as (_ & _ & _ & -> & _).
    apply converted_finite. exact Hf. }
  rewrite (to_torch_accepts rt (TorchInput t) device verbose' false);
    [|cbn; apply floating_is_real; exact Hfl|exact Hfin|reflexivity].
  do 2 f_equal.
  assert (Hconv : converted rt device (TorchInput t) = t).
  { unfold converted.
    rewrite (proj2 (device_eqb_eq _ _) Hdev). cbn [negb].
    rewrite Hfl. reflexivity. }
  rewrite Hconv. apply contiguous_fixed. subst t. apply is_contiguous_contiguous.
Qed.

Lemma to_torch_idempotent_witness :
  to_torch with_gpu
    (TorchInput (mkTensor float32 cpu [2; 3] [3; 1]
                   [fin 1; fin 2; fin 3; fin 4; fin 5; fin 6] false))
    (Some "cpu") false false
  = Ok (VTensor (mkTensor float32 cpu [2; 3] [3; 1]
                   [fin 1; fin 2; fin 3; fin 4; fin 5; fin 6] false)).
Proof.
  apply (to_torch_idempotent with_gpu (TorchInput counts) (Some "cpu") true false).
  reflexivity.
Defined.

(** X2.  A tensor returned by [to_torch] is on the first GPU when the
    device asked for is one of "cuda", "cuda:0", "gpu" or None and CUDA is
    available, and on the CPU in every other case, wherever the input was:
    any other device name, "cuda:1" included, means the CPU. *)
Theorem to_torch_device_placement rt x device verbose rbd v :
  to_torch rt x device verbose rbd = Ok v ->
  Forall (fun t =>
            (t_device t = cuda 0 /\
             device_asks_gpu device = true /\ cuda_is_available rt = true) \/
            (t_device t = cpu /\
             (device_asks_gpu device = false \/ cuda_is_available rt = false)))
         (tensors_of v).
Proof.
  intros H. apply to_torch_returns in H as (_ & _ & _ & ->).
  rewrite tensors_of_returned. constructor; [|constructor].
  rewrite contiguous_device, converted_device. unfold target_device.
  destruct (device_asks_gpu device), (cuda_is_available rt); cbn; auto.
Qed.

Lemma to_torch_device_placement_witness :
  Forall (fun t =>
            (t_device t = cuda 0 /\
             device_asks_gpu (Some "cuda:1") = true /\
             cuda_is_available with_gpu = true) \/
            (t_device t = cpu /\
             (device_asks_gpu (Some "cuda:1") = false \/
              cuda_is_available with_gpu = false)))
         (tensors_of (VTensor (mkTensor float32 cpu [2; 3] [3; 1]
                       [fin 1; fin 2; fin 3; fin 4; fin 5; fin 6] false))).
Proof.
  apply (to_torch_device_placement with_gpu (TorchInput counts) (Some "cuda:1")
           true false).
  reflexivity.
Defined.

(** X3.  A tensor returned by [to_torch] has the shape of the input.  When
    the input dtype is floating (float16 and float64 included) it keeps that
    dtype and its elements; otherwise it is float32 and its elements are the
    float32 roundings of the input elements, in the same order. *)
Theorem to_torch_keeps_shape_and_elements rt x device verbose rbd v :
  to_torch rt x device verbose rbd = Ok v ->
  Forall (fun t =>
            t_shape t = input_shape x /\
            if is_floating_point (input_dtype x)
            then t_dtype t = input_dtype x /\ t_data t = input_data x
            else t_dtype t = float32 /\
                 t_data t = map (cast_float32 rt) (input_data x))
         (tensors_of v).
Proof.
  intros H. apply to_torch_returns in H as (_ & _ & _ & ->).
  rewrite tensors_of_returned. constructor; [|constructor].
  destruct (contiguous_same_content (converted rt device x))
    as (-> & _ & -> & -> & _).
  split; [apply converted_shape|apply converted_elements].
Qed.

Lemma to_torch_keeps_shape_and_elements_witness :
  Forall (fun t =>
            t_shape t = [2; 2] /\
            t_dtype t = float32 /\
            t_data t = map (cast_float32 host_only)
                           [fin 0; fin 1; fin 1; fin 0])
         (tensors_of (VTensor (mkTensor float32 cpu [2; 2] [2; 1]
                       [fin 0; fin 1; fin 1; fin 0] false))).
Proof.
  apply (to_torch_keeps_shape_and_elements host_only (NumpyInput labels) None
           true false).
  reflexivity.
Defined.

(** X4.  [to_torch] returns a value exactly when its input is accepted: a
    torch tensor when it is not complex and all its elements are finite,
    whatever its shape, an empty tensor included; a numpy array when, in
    addition, it has two dimensions with at least one sample and one
    feature, so that an empty array is turned away. *)
Theorem to_torch_acceptance rt x device verbose rbd :
  (exists v, to_torch rt x device verbose rbd = Ok v) <->
  input_is_complex x = false /\ input_all_finite x = true /\
  match x with
  | TorchInput _ => True
  | NumpyInput a =>
      exists n_samples n_features,
        np_shape a = [n_samples; n_features] /\
        1 <= n_samples /\ 1 <= n_features
  end.
Proof.
  assert (Hshape : input_well_shaped x = true <->
            match x with
            | TorchInput _ => True
            | NumpyInput a =>
                exists n_samples n_features,
                  np_shape a = [n_samples; n_features] /\
                  1 <= n_samples /\ 1 <= n_features
            end).
  { destruct x as [t|a]; cbn [input_well_shaped]; [tauto|].
    destruct (np_shape a) as [|n [|m [|? ?]]].
    1, 2, 4: split; [discriminate|intros (n' & m' & E & _); discriminate].
    split.
    - intros H. apply andb_true_iff in H as [Hn Hm].
      apply Nat.leb_le in Hn, Hm. eauto.
    - intros (n' & m' & [= <- <-] & Hn & Hm).
      apply andb_true_iff. split; apply Nat.leb_le; assumption. }
  split.
  - intros [v H]. apply to_torch_returns in H as (Hc & Hf & Hs & _).
    rewrite <- Hshape. auto.
  - intros (Hc & Hf & Hs). rewrite <- Hshape in Hs. eexists.
    exact (to_torch_accepts rt x device verbose rbd Hc Hf Hs).
Qed.

Lemma to_torch_acceptance_witness :
  exists v, to_torch host_only
              (TorchInput (mkTensor float32 cpu [0; 3] [3; 1] [] false))
              None true false = Ok v.
Proof.
  apply (proj2 (to_torch_acceptance host_only
                  (TorchInput (mkTensor float32 cpu [0; 3] [3; 1] [] false))
                  None true false)).
  repeat split.
Defined.

(** X5.  The guard [np.iscomplex(x).any()] of [to_torch] never fires: no
    call raises "complex arrays are not supported", because [check_array]
    has turned complex arrays away before, with its own message. *)
Theorem complex_array_guard_is_unreachable rt x device verbose rbd e :
  to_torch rt x device verbose rbd = Raise e ->
  e <> ValueError msg_complex_array.
Proof.
  unfold to_torch, contiguous_output, to_torch_body.
  destruct x as [t|a].
  - destruct (is_complex t); [cbn; intros [= <-]; discriminate|].
    destruct (negb (isfinite_all t)); [cbn; intros [= <-]; discriminate|].
    cbn. destruct rbd; discriminate.
  - destruct (check_array a) as [a'|e'] eqn:Hck.
    + assert (Hreal : is_complex_dtype (np_dtype a') = false).
      { unfold check_array in Hck.
        destruct (is_complex_dtype (np_dtype a)) eqn:Hc; [discriminate|].
        destruct (np_shape a) as [|n [|m [|? ?]]]; try discriminate.
        destruct (negb (forallb scalar_isfinite (np_data a)));
          [destruct (existsb scalar_isnan (np_data a)); discriminate|].
        destruct (n <? 1); [discriminate|].
        destruct (m <? 1); [discriminate|].
        injection Hck as <-. exact Hc. }
      cbn [bind]. rewrite (np_iscomplex_any_real a' Hreal).
      cbn. destruct rbd; discriminate.
    + cbn. intros [= <-]. unfold check_array in Hck.
      destruct (is_complex_dtype (np_dtype a)); [injection Hck as <-; discriminate|].
      destruct (np_shape a) as [|n [|m [|? ?]]];
        try (injection Hck as <-; discriminate).
      destruct (negb (forallb scalar_isfinite (np_data a))).
      { destruct (existsb scalar_isnan (np_data a));
          injection Hck as <-; discriminate. }
      destruct (n <? 1); [injection Hck as <-; discriminate|].
      destruct (m <? 1); [injection Hck as <-; discriminate|].
      discriminate.
Qed.

Lemma complex_array_guard_is_unreachable_witness :
  ValueError sk_complex_data <> ValueError msg_complex_array.
Proof.
  apply (complex_array_guard_is_unreachable host_only (NumpyInput complex_array)
           None true false).
  reflexivity.
Defined.

(** X6.  With [return_backend_device] set, a call of [to_torch] that returns
    gives a generator, not a tuple, of exactly three items: the tensor, the
    backend name ("torch" for a tensor input, "numpy" otherwise) and the
    device the input was on (the string "cpu" for a numpy input).  Without
    the flag it gives the tensor alone. *)
Theorem to_torch_output_form rt x device verbose rbd v :
  to_torch rt x device verbose rbd = Ok v ->
  exists t,
    v = (if rbd
         then VGenerator
                [VTensor t;
                 VStr (match x with
                       | TorchInput _ => "torch"
                       | NumpyInput _ => "numpy"
                       end);
                 match x with
                 | TorchInput x => VDevice (t_device x)
                 | NumpyInput _ => VStr "cpu"
                 end]
         else VTensor t).
Proof.
  intros H. apply to_torch_returns in H as (_ & _ & _ & ->).
  exists (contiguous (converted rt device x)). destruct rbd, x; reflexivity.
Qed.

Lemma to_torch_output_form_witness :
  exists t,
    VGenerator [VTensor (mkTensor float32 cpu [2; 3] [3; 1]
                           [fin 1; fin 2; fin 3; fin 4; fin 5; fin 6] false);
                VStr "torch"; VDevice (cuda 1)]
    = VGenerator [VTensor t; VStr "torch"; VDevice (cuda 1)].
Proof.
  apply (to_torch_output_form with_gpu (TorchInput counts) (Some "cpu") true true).
  reflexivity.
Defined.

(** ** contiguous_output *)

(** X7.  When the decorated function returns a tuple, [contiguous_output]
    returns a generator with one item per item of the tuple, in the same
    order: a tensor item becomes a contiguous tensor with the same dtype,
    device, shape, elements and autograd flag, and every other item, a
    nested tuple of tensors included, is handed over as it is. *)
Theorem contiguous_output_on_tuples {A : Type} (func : A -> result value)
    (args : A) (items : list value) :
  func args = Ok (VTuple items) ->
  exists items',
    contiguous_output func args = Ok (VGenerator items') /\
    Forall2 (fun item item' =>
               match item with
               | VTensor t =>
                   exists t', item' = VTensor t' /\
                              is_contiguous t' = true /\ same_content t' t
               | _ => item' = item
               end) items items'.
Proof.
  intros H. exists (map contiguous_item items). split.
  - unfold contiguous_output. rewrite H. reflexivity.
  - clear H. induction items as [|item items IH]; cbn [map]; constructor;
      [|exact IH].
    destruct item as [t| | | | | |]; cbn [contiguous_item]; try reflexivity.
    exists (contiguous t). split; [reflexivity|]. split.
    + apply is_contiguous_contiguous.
    + apply contiguous_same_content.
Qed.

Lemma contiguous_output_on_tuples_witness :
  exists items',
    contiguous_output (labelled_op (mkEstimator None)) (VTensor counts)
      = Ok (VGenerator items') /\
    Forall2 (fun item item' =>
               match item with
               | VTensor t =>
                   exists t', item' = VTensor t' /\
                              is_contiguous t' = true /\ same_content t' t
               | _ => item' = item
               end) [VTensor counts; VStr "embedding"] items'.
Proof.
  apply (contiguous_output_on_tuples (labelled_op (mkEstimator None))
           (VTensor counts) [VTensor counts; VStr "embedding"]).
  reflexivity.
Defined.

(** ** torch_to_backend *)

(** device names, as [Tensor.to] reads them *)
Example as_device_names :
  map (fun name => as_device (VStr name)) ["cpu"; "cuda"; "cuda:0"; "cuda:1"; "gpu"]
  = [Ok cpu; Ok (cuda 0); Ok (cuda 0); Ok (cuda 1);
     Raise (RuntimeError "Invalid device string")].
Proof. reflexivity. Qed.

(** a tensor sent to the device named [cuda:1] lands on the second card *)
Example torch_to_backend_second_card :
  torch_to_backend (VTensor temperatures) (VStr "torch") (VStr "cuda:1")
  = Ok (VTensor (tensor_to temperatures (cuda 1))).
Proof. reflexivity. Qed.

(** X8.  Sent to a [torch.device], a tensor comes back as a numpy array
    exactly when the backend is "numpy", the device is the CPU and the
    tensor does not take part in autograd: on a GPU or with gradients the
    call raises.  With any other backend name, known or not, no error is
    raised and the tensor comes back as a torch tensor on that device. *)
Theorem torch_to_backend_to_numpy (t : Tensor) (d : device) :
  (d = cpu /\ t_requires_grad t = false ->
   torch_to_backend (VTensor t) (VStr "numpy") (VDevice d)
   = Ok (VArray (mkArray (t_dtype t) (t_shape t) (t_data t)))) /\
  (d <> cpu \/ t_requires_grad t = true ->
   exists e, torch_to_backend (VTensor t) (VStr "numpy") (VDevice d) = Raise e) /\
  (forall name, name <> "numpy" ->
   torch_to_backend (VTensor t) (VStr name) (VDevice d)
   = Ok (VTensor (tensor_to t d))).
Proof.
  unfold torch_to_backend. cbn [as_device bind is_numpy_backend].
  repeat split.
  - intros [-> Hg]. cbn. rewrite Hg. reflexivity.
  - intros H. cbn. unfold tensor_numpy. cbn [tensor_to t_device t_requires_grad].
    destruct d as [|i]; [|eexists; reflexivity].
    destruct (t_requires_grad t) eqn:Hg; [eexists; reflexivity|].
    destruct H as [H|H]; congruence.
  - intros name Hname.
    destruct (String.eqb_spec name "numpy") as [->|_]; [congruence|reflexivity].
Qed.

Lemma torch_to_backend_to_numpy_witness :
  (exists e, torch_to_backend (VTensor temperatures) (VStr "numpy") (VDevice cpu)
             = Raise e) /\
  torch_to_backend (VTensor temperatures) (VStr "Numpy") (VDevice cpu)
  = Ok (VTensor (tensor_to temperatures cpu)).
Proof.
  split.
  - apply (proj1 (proj2 (torch_to_backend_to_numpy temperatures cpu))).
    right. reflexivity.
  - apply (proj2 (proj2 (torch_to_backend_to_numpy temperatures cpu))).
    discriminate.
Defined.

(** ** handle_backend *)

(** X9.  A call wrapped by [handle_backend] fails in three ways only:
    [to_torch] turns the input away, and its error comes out unchanged
    whatever the operation; the operation raises on the converted tensor,
    and its error comes out unchanged; or the operation returns something
    other than a torch tensor (a tuple, a lazy tensor), which has nothing to
    detach.  The conversion back never fails. *)
Theorem handle_backend_failures rt func self X e :
  handle_backend rt func self X = Raise e <->
  to_torch rt X (est_device self) false true = Raise e \/
  ((exists v, to_torch rt X (est_device self) false true = Ok v) /\
   (func self (VTensor (contiguous (converted rt (est_device self) X))) = Raise e \/
    exists out,
      func self (VTensor (contiguous (converted rt (est_device self) X))) = Ok out /\
      is_tensor out = false /\
      e = AttributeError "object has no attribute 'detach'")).
Proof.
  unfold handle_backend.
  destruct (to_torch_cases X) as [(Hc & Hf & Hs)|Hrej].
  - rewrite (to_torch_accepts rt X (est_device self) false true Hc Hf Hs).
    cbn [bind unpack3].
    destruct (func self (VTensor (contiguous (converted rt (est_device self) X))))
      as [out|e']; cbn [bind].
    + destruct out as [o| | | | | |]; cbn [detach bind].
      1: { rewrite convert_back_succeeds. split; [discriminate|].
           intros [H|[_ [H|(out & [= <-] & H & _)]]]; discriminate. }
      all: split;
        [ intros [= <-]; right; split; [eauto|]; right; eauto
        | intros [H|[_ [H|(out & _ & _ & ->)]]]; [discriminate..|reflexivity] ].
    + split.
      * intros [= <-]. right. split; [eauto|]. left. reflexivity.
      * intros [H|[_ [H|(out & H & _)]]]; [discriminate|exact H|discriminate].
  - destruct (to_torch_rejects rt X (est_device self) false true Hrej) as [msg ->].
    cbn [bind]. split.
    + intros H. left. exact H.
    + intros [H|[[v H] _]]; [exact H|discriminate].
Qed.

Lemma handle_backend_failures_witness :
  handle_backend host_only labelled_op (mkEstimator None) (NumpyInput two_points)
  = Raise (AttributeError "object has no attribute 'detach'").
Proof.
  apply (proj2 (handle_backend_failures host_only labelled_op (mkEstimator None)
                  (NumpyInput two_points) _)).
  right. split; [eexists; reflexivity|]. right.
  eexists. split; [reflexivity|]. split; reflexivity.
Defined.

(** X10.  Round trip: for an operation that hands its input back, a wrapped
    call on an accepted input of floating dtype returns the data it was
    given.  A numpy array comes back equal to itself; a torch tensor comes
    back with its dtype, device, shape and elements. *)
Theorem handle_backend_round_trip_of_data rt func self X :
  (forall v, func self v = Ok v) ->
  is_floating_point (input_dtype X) = true ->
  input_all_finite X = true ->
  input_well_shaped X = true ->
  match X with
  | NumpyInput a => handle_backend rt func self X = Ok (VArray a)
  | TorchInput t =>
      exists t', handle_backend rt func self X = Ok (VTensor t') /\
                 t_dtype t' = t_dtype t /\ t_device t' = t_device t /\
                 t_shape t' = t_shape t /\ t_data t' = t_data t
  end.
Proof.
  intros Hid Hfl Hf Hs.
  assert (Hc : input_is_complex X = false).
  { destruct X; cbn in *; apply floating_is_real; exact Hfl. }
  assert (Hcall : handle_backend rt func self X
                  = Ok (in_input_backend X
                          (contiguous (converted rt (est_device self) X)))).
  { unfold handle_backend.
    rewrite (to_torch_accepts rt X (est_device self) false true Hc Hf Hs).
    cbn [bind unpack3]. rewrite Hid. cbn [bind detach].
    apply convert_back_succeeds. }
  pose proof (converted_elements rt (est_device self) X) as Hel.
  rewrite Hfl in Hel. destruct Hel as [Hd He].
  pose proof (converted_shape rt (est_device self) X) as Hsh.
  destruct (contiguous_same_content (converted rt (est_device self) X))
    as (Hd' & _ & Hsh' & He' & _).
  destruct X as [t|a]; cbn [in_input_backend input_dtype input_shape input_data] in *.
  - eexists. split; [exact Hcall|]. cbn. repeat split; congruence.
  - rewrite Hcall. rewrite Hd', Hsh', He', Hd, Hsh, He. destruct a. reflexivity.
Qed.

Lemma handle_backend_round_trip_of_data_witness :
  handle_backend with_gpu identity_op (mkEstimator None) (NumpyInput two_points)
  = Ok (VArray two_points).
Proof.
  apply (handle_backend_round_trip_of_data with_gpu identity_op (mkEstimator None)
           (NumpyInput two_points)); reflexivity.
Defined.

(** X11.  A torch tensor returned by a wrapped call never takes part in
    autograd, even when the input or the output of the operation did: the
    output is detached before it is converted back. *)
Theorem handle_backend_output_is_detached rt func self X t :
  handle_backend rt func self X = Ok (VTensor t) ->
  t_requires_grad t = false.
Proof.
  unfold handle_backend.
  destruct (to_torch_cases X) as [(Hc & Hf & Hs)|Hrej].
  - rewrite (to_torch_accepts rt X (est_device self) false true Hc Hf Hs).
    cbn [bind unpack3].
    destruct (func self (VTensor (contiguous (converted rt (est_device self) X))))
      as [out|e']; cbn [bind]; [|discriminate].
    destruct out as [o| | | | | |]; cbn [detach bind]; try discriminate.
    rewrite convert_back_succeeds.
    destruct X as [x|a]; cbn [in_input_backend]; [|discriminate].
    intros [= <-]. reflexivity.
  - destruct (to_torch_rejects rt X (est_device self) false true Hrej) as [msg ->].
    discriminate.
Qed.

Lemma handle_backend_output_is_detached_witness :
  t_requires_grad (tensor_to (tensor_detach temperatures) cpu) = false.
Proof.
  apply (handle_backend_output_is_detached host_only identity_op
           (mkEstimator None) (TorchInput temperatures)).
  reflexivity.
Defined.

(** X15.  The operation wrapped by [handle_backend] is only ever applied to
    one argument: a contiguous tensor of floating dtype, on the device the
    estimator asks for, with the shape of the input.  Two operations that
    agree on such tensors give the same wrapped call, results and errors
    alike, whatever they do elsewhere. *)
Theorem handle_backend_argument rt func func' self X :
  (forall t,
     is_floating_point (t_dtype t) = true ->
     is_contiguous t = true ->
     t_device t = target_device rt (est_device self) ->
     t_shape t = input_shape X ->
     func self (VTensor t) = func' self (VTensor t)) ->
  handle_backend rt func self X = handle_backend rt func' self X.
Proof.
  intros Hagree. unfold handle_backend.
  destruct (to_torch_cases X) as [(Hc & Hf & Hs)|Hrej].
  - rewrite (to_torch_accepts rt X (est_device self) false true Hc Hf Hs).
    cbn [bind unpack3]. rewrite Hagree; [reflexivity| | | |].
    + rewrite contiguous_dtype. apply converted_floating.
    + apply is_contiguous_contiguous.
    + rewrite contiguous_device. apply converted_device.
    + destruct (contiguous_same_content (converted rt (est_device self) X))
        as (_ & _ & -> & _). apply converted_shape.
  - destruct (to_torch_rejects rt X (est_device self) false true Hrej) as [msg ->].
    reflexivity.
Qed.

Lemma handle_backend_argument_witness :
  handle_backend host_only identity_op (mkEstimator None) (NumpyInput labels)
  = handle_backend host_only float_only_op (mkEstimator None) (NumpyInput labels).
Proof.
  apply (handle_backend_argument host_only identity_op float_only_op
           (mkEstimator None) (NumpyInput labels)).
  intros t Hfl _ _ _. cbn. rewrite Hfl. reflexivity.
Defined.

(** ** wrap_vectors *)

Lemma traverse_total {A B : Type} (f : A -> result B) (g : A -> B) (l : list A) :
  (forall a, f a = Ok (g a)) -> traverse f l = Ok (map g l).
Proof.
  intros H. induction l as [|a l IH]; cbn [traverse map]; [reflexivity|].
  rewrite H, IH. reflexivity.
Qed.

Lemma traverse_raises {A B : Type} (f : A -> result B) (l : list A) (a : A)
    (e0 : exn) :
  In a l -> f a = Raise e0 -> exists e, traverse f l = Raise e.
Proof.
  intros Hin Ha. induction l as [|b l IH]; [contradiction|].
  cbn [traverse]. destruct (f b) as [y|e] eqn:Hb; cbn [bind]; [|eauto].
  destruct Hin as [->|Hin]; [congruence|].
  destruct (IH Hin) as [e ->]. cbn. eauto.
Qed.

Lemma traverse_error_only {A B : Type} (f : A -> result B) (l : list A)
    (e0 e : exn) :
  (forall b e', f b = Raise e' -> e' = e0) ->
  traverse f l = Raise e -> e = e0.
Proof.
  intros Honly. revert e. induction l as [|b l IH]; intros e; cbn [traverse];
    [discriminate|].
  destruct (f b) as [y|e'] eqn:Hb; cbn [bind].
  - destruct (traverse f l) as [ys|e'']; cbn [bind]; [discriminate|].
    intros [= <-]. apply IH. reflexivity.
  - intros [= <-]. exact (Honly b e' Hb).
Qed.

Lemma traverse_raises_only {A B : Type} (f : A -> result B) (l : list A) (a : A)
    (e0 : exn) :
  (forall b e, f b = Raise e -> e = e0) ->
  In a l -> f a = Raise e0 -> traverse f l = Raise e0.
Proof.
  intros Honly Hin Ha. destruct (traverse_raises f l a e0 Hin Ha) as [e He].
  rewrite He. f_equal. exact (traverse_error_only f l e0 e Honly He).
Qed.

Lemma keops_unsqueeze_bad_rank checks (t : Tensor) :
  length (t_shape t) <> 1 -> length (t_shape t) <> 2 ->
  keops_unsqueeze checks t = Raise (ValueError msg_keops_shape).
Proof.
  intros H1 H2. unfold keops_unsqueeze.
  destruct (length (t_shape t)) as [|[|[|n]]]; congruence.
Qed.

(** X12.  With a dense cost matrix, [wrap_vectors] adds nothing that can
    fail and never turns to KeOps: the function is called with as many
    positional and keyword arguments, under the same names and in the same
    order, every tensor among them with one more axis of size 1 at the end,
    whatever its rank, and everything else untouched. *)
Theorem wrap_vectors_dense checks func C args kwargs :
  is_lazy_tensor C = false ->
  wrap_vectors checks func C args kwargs
  = func C (map with_trailing_axis args)
           (map (fun kv => (fst kv, with_trailing_axis (snd kv))) kwargs).
Proof.
  intros HC. unfold wrap_vectors. rewrite HC.
  assert (Hf : forall v, unsqueeze_arg checks false v = Ok (with_trailing_axis v))
    by (intros v; destruct v; reflexivity).
  rewrite (traverse_total _ with_trailing_axis) by exact Hf. cbn [bind].
  rewrite (traverse_total _ (fun kv => (fst kv, with_trailing_axis (snd kv)))).
  - reflexivity.
  - intros kv. rewrite Hf. reflexivity.
Qed.

Lemma wrap_vectors_dense_witness :
  wrap_vectors lenient_checks cost_of (VTensor counts)
    [VTensor cube; VStr "euclidean"] [("eps", VTensor temperatures)]
  = cost_of (VTensor counts)
      (map with_trailing_axis [VTensor cube; VStr "euclidean"])
      (map (fun kv => (fst kv, with_trailing_axis (snd kv)))
           [("eps", VTensor temperatures)]).
Proof.
  apply (wrap_vectors_dense lenient_checks cost_of (VTensor counts)).
  reflexivity.
Defined.

(** X13.  With a lazy cost matrix, a tensor argument, positional or keyword,
    that is neither a vector nor a batch of vectors (no dimension, or three
    and more) makes the call raise before the function is reached: the error
    is the same whatever the function, and it is the [ValueError] of
    [keops_unsqueeze] when the KeOps constructor accepts the other
    arguments.  The dense path accepts the same arguments (X12). *)
Theorem wrap_vectors_keops_rejects checks C args kwargs t :
  is_lazy_tensor C = true ->
  In (VTensor t) args \/ (exists key, In (key, VTensor t) kwargs) ->
  length (t_shape t) <> 1 -> length (t_shape t) <> 2 ->
  (exists e, forall func, wrap_vectors checks func C args kwargs = Raise e) /\
  ((forall x axis, checks x axis = Ok tt) ->
   forall func,
     wrap_vectors checks func C args kwargs = Raise (ValueError msg_keops_shape)).
Proof.
  intros HC Hin H1 H2. unfold wrap_vectors. rewrite HC.
  pose proof (keops_unsqueeze_bad_rank checks t H1 H2) as Hbad.
  set (f := unsqueeze_arg checks true).
  set (g := fun kv : string * value => v <- f (snd kv) ;; Ok (fst kv, v)).
  assert (Hft : f (VTensor t) = Raise (ValueError msg_keops_shape)) by exact Hbad.
  assert (Hgt : forall key, g (key, VTensor t) = Raise (ValueError msg_keops_shape)).
  { intros key. unfold g. cbn [snd]. rewrite Hft. reflexivity. }
  split.
  - destruct (traverse f args) as [args'|e] eqn:Ha; cbn [bind]; [|eauto].
    destruct Hin as [Hin|[key Hin]].
    + destruct (traverse_raises f args _ _ Hin Hft) as [e He]. congruence.
    + destruct (traverse_raises g kwargs _ _ Hin (Hgt key)) as [e ->].
      cbn. eauto.
  - intros Hlenient func.
    assert (Hf : forall v e, f v = Raise e -> e = ValueError msg_keops_shape).
    { intros v e. subst f. destruct v as [x| | | | | |]; cbn [unsqueeze_arg];
        try discriminate.
      unfold keops_unsqueeze, LazyTensor.
      destruct (length (t_shape x)) as [|[|[|n]]]; rewrite ?Hlenient; cbn;
        congruence. }
    assert (Hg : forall kv e, g kv = Raise e -> e = ValueError msg_keops_shape).
    { intros kv e. unfold g. destruct (f (snd kv)) as [v|e'] eqn:Hv; cbn [bind];
        [discriminate|]. intros [= <-]. exact (Hf _ _ Hv). }
    destruct Hin as [Hin|[key Hin]].
    + rewrite (traverse_raises_only f args _ _ Hf Hin Hft). reflexivity.
    + destruct (traverse f args) as [args'|e] eqn:Ha; cbn [bind].
      * rewrite (traverse_raises_only g kwargs _ _ Hg Hin (Hgt key)). reflexivity.
      * f_equal. exact (traverse_error_only f args _ e Hf Ha).
Qed.

Lemma wrap_vectors_keops_rejects_witness :
  (exists e, forall func,
     wrap_vectors lenient_checks func VLazyTensor
       [VTensor temperatures] [("mask", VTensor cube)] = Raise e) /\
  ((forall x axis, lenient_checks x axis = Ok tt) ->
   forall func,
     wrap_vectors lenient_checks func VLazyTensor
       [VTensor temperatures] [("mask", VTensor cube)]
     = Raise (ValueError msg_keops_shape)).
Proof.
  apply (wrap_vectors_keops_rejects lenient_checks VLazyTensor
           [VTensor temperatures] [("mask", VTensor cube)] cube).
  - reflexivity.
  - right. exists "mask". left. reflexivity.
  - cbn. lia.
  - cbn. lia.
Defined.

(** ** sum_all_axis *)

(** X14.  [sum_all_axis] is determined by the output of the function it
    wraps.  An exception of that function is propagated as it is.  An output
    that is neither a tensor nor a lazy tensor raises the [AssertionError] of
    the decorator.  A tensor of fewer than two dimensions raises the
    [IndexError] of [sum(1)], which has no axis 1 to sum over.  A tensor of
    two dimensions or more gives a single tensor without dimensions, holding
    one element, on the device of the output.  A lazy tensor gives such a
    tensor when the KeOps reduction succeeds, and the exception of the
    reduction otherwise.  Conversely every outcome has one of these causes. *)
Theorem sum_all_axis_behaviour {A : Type} (red : reductions)
    (func : A -> result value) (args : A) :
  (forall e, func args = Raise e -> sum_all_axis red func args = inr (Exn e)) /\
  (forall v, func args = Ok v -> is_tensor v = false -> is_lazy_tensor v = false ->
             sum_all_axis red func args = inr (AssertionError msg_sum_all_axis)) /\
  (forall t, func args = Ok (VTensor t) -> length (t_shape t) < 2 ->
             sum_all_axis red func args = inr (IndexError "Dimension out of range")) /\
  (forall t, func args = Ok (VTensor t) -> 2 <= length (t_shape t) ->
             exists s, sum_all_axis red func args = inl (VTensor s) /\
                       t_shape s = [] /\ length (t_data s) = 1 /\
                       is_contiguous s = true /\ t_device s = t_device t) /\
  (func args = Ok VLazyTensor ->
   match lazy_sum red 1 with
   | Ok rows =>
       exists s, sum_all_axis red func args = inl (VTensor s) /\
                 t_shape s = [] /\ length (t_data s) = 1 /\
                 is_contiguous s = true /\ t_device s = t_device rows
   | Raise e => sum_all_axis red func args = inr (Exn e)
   end) /\
  match sum_all_axis red func args with
  | inl v =>
      exists s, v = VTensor s /\ t_shape s = [] /\ length (t_data s) = 1 /\
                is_contiguous s = true
  | inr (Exn e) =>
      func args = Raise e \/
      (func args = Ok VLazyTensor /\ lazy_sum red 1 = Raise e)
  | inr (AssertionError msg) =>
      msg = msg_sum_all_axis /\
      exists v, func args = Ok v /\ is_tensor v = false /\
                is_lazy_tensor v = false
  | inr (IndexError _) =>
      exists t, func args = Ok (VTensor t) /\ length (t_shape t) < 2
  end.
Proof.
  unfold sum_all_axis. repeat split.
  - intros e ->. reflexivity.
  - intros v -> Ht Hl. destruct v; try discriminate; reflexivity.
  - intros t -> Hrank. unfold tensor_sum_dim1.
    destruct (t_shape t) as [|d0 [|d1 rest]]; cbn in Hrank; try lia; reflexivity.
  - intros t -> Hrank. unfold tensor_sum_dim1.
    destruct (t_shape t) as [|d0 [|d1 rest]]; cbn in Hrank; try lia.
    eexists. repeat split; reflexivity.
  - intros ->. destruct (lazy_sum red 1) as [rows|e].
    + eexists. repeat split; reflexivity.
    + reflexivity.
  - destruct (func args) as [v|e]; [|left; reflexivity].
    destruct v as [t| | | | | |];
      try (split; [reflexivity|]; eexists; repeat split; reflexivity).
    + unfold tensor_sum_dim1.
      destruct (t_shape t) as [|d0 [|d1 rest]] eqn:Hsh.
      * exists t. rewrite Hsh. split; [reflexivity|cbn; lia].
      * exists t. rewrite Hsh. split; [reflexivity|cbn; lia].
      * eexists. repeat split; reflexivity.
    + destruct (lazy_sum red 1) as [rows|e] eqn:Hl.
      * eexists. repeat split; reflexivity.
      * right. split; reflexivity.
Qed.

Lemma sum_all_axis_behaviour_witness :
  (exists s, sum_all_axis exact_sums (identity_op (mkEstimator None)) (VTensor counts)
             = inl (VTensor s) /\
             t_shape s = [] /\ length (t_data s) = 1 /\
             is_contiguous s = true /\ t_device s = t_device counts) /\
  sum_all_axis exact_sums (identity_op (mkEstimator None)) (VTensor temperatures)
  = inr (IndexError "Dimension out of range") /\
  sum_all_axis exact_sums (identity_op (mkEstimator None)) (VStr "embedding")
  = inr (AssertionError msg_sum_all_axis) /\
  sum_all_axis exact_sums (fun p => float_only_op (fst p) (snd p))
    (mkEstimator None, VTensor counts)
  = inr (Exn (TypeError "expected a floating point tensor")).
Proof.
  pose proof (sum_all_axis_behaviour exact_sums (identity_op (mkEstimator None))
                (VTensor counts)) as (_ & _ & _ & Hdense & _).
  pose proof (sum_all_axis_behaviour exact_sums (identity_op (mkEstimator None))
                (VTensor temperatures)) as (_ & _ & Hflat & _).
  pose proof (sum_all_axis_behaviour exact_sums (identity_op (mkEstimator None))
                (VStr "embedding")) as (_ & Hother & _).
  pose proof (sum_all_axis_behaviour exact_sums
                (fun p => float_only_op (fst p) (snd p))
                (mkEstimator None, VTensor counts)) as (Hraise & _).
  split; [|split; [|split]].
  - apply (Hdense counts); [reflexivity|cbn; lia].
  - apply (Hflat temperatures); [reflexivity|cbn; lia].
  - apply (Hother (VStr "embedding")); reflexivity.
  - apply Hraise. reflexivity.
Defined.

End WrapperCoverage.
